(** * formula.py: Excel and Python formulas over a table, verified

    A shallow embedding of [formula.py] (CJWorkbench "formula" module) and
    the properties its specification states about it.

    Layout: the Python values and exceptions the module handles; the pandas
    objects it manipulates (Series, DataFrame, Categorical) with the pandas
    primitives it calls; then the functions of [formula.py] in source order;
    then the theorems. *)

From Stdlib Require Import ZArith QArith String Ascii DecimalString DecimalNat.
From stdpp Require Import base option list gmap strings sorting.

Local Open Scope string_scope.
Local Open Scope Z_scope.
Local Open Scope list_scope.

(* ================================================================= *)
(** ** Exceptions and the error monad *)

(** [cjwmodule.i18n.trans(id, default, arguments)] builds an
    [I18nMessage]; the default English text is not part of the message. *)
Record I18nMessage := mkI18n {
  msg_id : string;
  msg_args : list (string * string)
}.

Definition i18n_trans (id default : string) (args : list (string * string))
  : I18nMessage := mkI18n id args.

(** The exceptions that travel through the module. The first three are
    instances of [Exception]. [DispatcherError] is schedula's: [msg] is
    its [str], [args[1]] is the node (function) name and [args[2]] the
    cause, of which the code only asks whether it is a
    [NotImplementedError]. [PyError cls msg] is any other instance of
    [Exception] ([ValueError], [TypeError], [KeyError], [NameError], ...),
    of class [cls] with [str(e) = msg]. [PyBaseException cls msg] is an
    exception that is no instance of [Exception]: [SystemExit],
    [KeyboardInterrupt], [GeneratorExit] or another subclass of
    [BaseException] alone, which [except Exception] does not catch. *)
Inductive exn :=
| UserVisibleError (m : I18nMessage)
| DispatcherError (msg node : string) (cause_not_implemented : bool)
| PyError (cls msg : string)
| PyBaseException (cls msg : string).

(** [isinstance(e, Exception)]. *)
Definition is_Exception (e : exn) : bool :=
  match e with
  | PyBaseException _ _ => false
  | _ => true
  end.

(** [str(e)], where the module takes it: of what the Excel compiler
    raises and of what a Python expression raises. (The [str] of a
    [UserVisibleError] is that of its message object, of which the model
    keeps the id.) *)
Definition exn_str (e : exn) : string :=
  match e with
  | UserVisibleError m => msg_id m
  | DispatcherError msg _ _ => msg
  | PyError _ msg => msg
  | PyBaseException _ msg => msg
  end.

Inductive result (A : Type) :=
| Ok (a : A)
| Raise (e : exn).
Arguments Ok {A} a.
Arguments Raise {A} e.

Definition bind {A B} (m : result A) (k : A -> result B) : result B :=
  match m with
  | Ok a => k a
  | Raise e => Raise e
  end.

Notation "'let*' x ':=' m 'in' k" := (bind m (fun x => k))
  (at level 10, x pattern, m at level 100, k at level 200).

(** A [for] loop that builds a list and stops at the first exception. *)
Fixpoint mapM {A B} (f : A -> result B) (l : list A) : result (list B) :=
  match l with
  | [] => Ok []
  | x :: l' =>
      let* y := f x in
      let* ys := mapM f l' in
      Ok (y :: ys)
  end.

Definition is_Ok {A} (r : result A) : bool :=
  match r with Ok _ => true | Raise _ => false end.

(* ================================================================= *)
(** ** Python builtins used by the module *)

(** A [str] is modelled by a [string] whose characters are the code
    points below U+0100, one [ascii] each; an [int] by a [Z]. The sizes
    are those of a 64-bit CPython. *)
Module Py.

(** The one-character strings holding a double quote, a single quote, a
    backslash and a line feed. *)
Definition dquote : string := String (ascii_of_nat 34) EmptyString.
Definition squote : string := String (ascii_of_nat 39) EmptyString.
Definition backslash : string := String (ascii_of_nat 92) EmptyString.
Definition newline : string := String (ascii_of_nat 10) EmptyString.

(** [sys.maxsize], the largest list index. *)
Definition ssize_max : Z := 2 ^ 63 - 1.

(** [str(n)] of a non-negative [int] (what an f-string prints). *)
Definition str_of_nat (n : nat) : string :=
  NilEmpty.string_of_uint (Nat.to_uint n).

(** [c.isspace()], the characters [str.strip()] removes: below U+0100
    these are U+0009 to U+000D, U+001C to U+0020, U+0085 and U+00A0. *)
Definition is_space (c : ascii) : bool :=
  let n := nat_of_ascii c in
  ((9 <=? n) && (n <=? 13) || (28 <=? n) && (n <=? 32)
   || (n =? 133) || (n =? 160))%nat.

Fixpoint lstrip (s : string) : string :=
  match s with
  | String c s' => if is_space c then lstrip s' else s
  | EmptyString => EmptyString
  end.

(** [rstrip] keeps a character when something other than white space
    follows it. *)
Fixpoint rstrip (s : string) : string :=
  match s with
  | String c s' =>
      match rstrip s' with
      | EmptyString => if is_space c then EmptyString else String c EmptyString
      | r => String c r
      end
  | EmptyString => EmptyString
  end.

(** [s.strip()]. *)
Definition strip (s : string) : string := rstrip (lstrip s).

Definition hex_digit (n : nat) : ascii :=
  ascii_of_nat (if n <? 10 then 48 + n else 87 + n)%nat.

(** One character of [repr(s)], between quotes of the kind [quote]. Not
    printable below U+0100 are the controls U+0000 to U+001F and U+007F
    to U+009F, the no-break space U+00A0 and the soft hyphen U+00AD. *)
Definition repr_char (quote : ascii) (c : ascii) : string :=
  let n := nat_of_ascii c in
  if Ascii.eqb c quote || (n =? 92)%nat then backslash +:+ String c EmptyString
  else if (n =? 9)%nat then backslash +:+ "t"
  else if (n =? 10)%nat then backslash +:+ "n"
  else if (n =? 13)%nat then backslash +:+ "r"
  else if ((n <? 32) || (127 <=? n) && (n <=? 160) || (n =? 173))%nat
  then backslash +:+ "x"
       +:+ String (hex_digit (n / 16)%nat)
             (String (hex_digit (n mod 16)%nat) EmptyString)
  else String c EmptyString.

(** [repr(s)] of a [str]: in single quotes, or in double quotes when the
    text holds a single quote and no double quote. *)
Definition repr (s : string) : string :=
  let chars := list_ascii_of_string s in
  let has c := existsb (Ascii.eqb c) chars in
  let quote := if has "'"%char && negb (has (ascii_of_nat 34))
               then ascii_of_nat 34 else "'"%char in
  String quote
    (foldr (fun c acc => repr_char quote c +:+ acc) (String quote EmptyString) chars).

(** [s.replace(" ", "_")]. *)
Fixpoint replace_space (s : string) : string :=
  match s with
  | String c s' =>
      String (if Ascii.eqb c " "%char then "_"%char else c) (replace_space s')
  | EmptyString => EmptyString
  end.

Definition digit_of (c : ascii) : option Z :=
  let n := Z.of_nat (nat_of_ascii c) in
  if (48 <=? n) && (n <=? 57) then Some (n - 48) else None.

(** Decimal digits, with single underscores allowed between two of
    them; [after_digit] tells whether the character before was a digit. *)
Fixpoint digits (acc : Z) (after_digit : bool) (s : string) : option Z :=
  match s with
  | EmptyString => if after_digit then Some acc else None
  | String c s' =>
      if Ascii.eqb c "_"%char then
        if after_digit then digits acc false s' else None
      else
        match digit_of c with
        | Some d => digits (10 * acc + d) true s'
        | None => None
        end
  end.

(** [int(s)] for a [str]: white space around it is dropped; then come an
    optional sign and decimal digits. *)
Definition int (s : string) : result Z :=
  let bad := Raise (PyError "ValueError"
                      ("invalid literal for int() with base 10: " +:+ repr s)) in
  match strip s with
  | String "-"%char s' =>
      match digits 0 false s' with Some z => Ok (- z) | None => bad end
  | String "+"%char s' =>
      match digits 0 false s' with Some z => Ok z | None => bad end
  | s' => match digits 0 false s' with Some z => Ok z | None => bad end
  end.

(** [l[i]] on a list: an [int] that does not fit a list index raises
    [IndexError] at once; negative indices count from the end, and
    anything outside [-len, len) raises [IndexError]. *)
Definition list_getitem {A} (l : list A) (i : Z) : result A :=
  if (i <? - ssize_max - 1) || (ssize_max <? i) then
    Raise (PyError "IndexError" "cannot fit 'int' into an index-sized integer")
  else
    let n := Z.of_nat (length l) in
    let j := if i <? 0 then i + n else i in
    if (0 <=? j) && (j <? n) then
      match l !! Z.to_nat j with
      | Some x => Ok x
      | None => Raise (PyError "IndexError" "list index out of range")
      end
    else Raise (PyError "IndexError" "list index out of range").

(** [l[a:b]] for [0 <= a]: the slice is clamped to the list, never an
    error. (Negative bounds, which Python counts from the end, do not reach
    the slices of this module: the callers check [0 <= a < b] first.) *)
Definition slice {A} (l : list A) (a b : Z) : list A :=
  take (Z.to_nat (b - a)) (drop (Z.to_nat a) l).

(** [dict(pairs)]: later pairs overwrite earlier ones with the same key. *)
Definition dict {V} (pairs : list (string * V)) : gmap string V :=
  foldl (fun m kv => <[kv.1 := kv.2]> m) ∅ pairs.

(** [d[k]], raising [KeyError(k)], whose [str] is the [repr] of the key. *)
Definition dict_getitem {V} (d : gmap string V) (k : string) : result V :=
  match d !! k with
  | Some v => Ok v
  | None => Raise (PyError "KeyError" (repr k))
  end.

End Py.

(* ================================================================= *)
(** ** Parameter migration *)

(** A value stored in the parameter dict. [bool] is a subclass of [int] in
    Python, so [isinstance(True, int)] holds. *)
Inductive param_value :=
| ParamInt (z : Z)
| ParamBool (b : bool)
| ParamStr (s : string)
| ParamOther (type_name repr : string).

Definition isinstance_int (v : param_value) : bool :=
  match v with
  | ParamInt _ | ParamBool _ => true
  | _ => false
  end.

(** The value as a list index ([__index__]); other types raise
    [TypeError]. *)
Definition as_index (v : param_value) : result Z :=
  match v with
  | ParamInt z => Ok z
  | ParamBool b => Ok (Z.b2z b)
  | ParamStr _ =>
      Raise (PyError "TypeError" "list indices must be integers or slices, not str")
  | ParamOther type_name _ =>
      Raise (PyError "TypeError"
               ("list indices must be integers or slices, not " +:+ type_name))
  end.

Definition _migrate_params_v0_to_v1 (params : gmap string param_value)
  : result (gmap string param_value) :=
  let* syntax := Py.dict_getitem params "syntax" in
  let* i := as_index syntax in
  let* name := Py.list_getitem ["excel"; "python"] i in
  Ok (<["syntax" := ParamStr name]> params).

Definition migrate_params (params : gmap string param_value)
  : result (gmap string param_value) :=
  let* syntax := Py.dict_getitem params "syntax" in
  if isinstance_int syntax then _migrate_params_v0_to_v1 params
  else Ok params.

(* ================================================================= *)
(** ** Output column name *)

(** The [while f"{out_column}{n}" in table.columns: n += 1] loop, with
    fuel: [None] when the fuel runs out before a free name is found. *)
Fixpoint first_free_suffix (columns : list string) (out_column : string)
    (fuel n : nat) : option nat :=
  match fuel with
  | O => None
  | S fuel' =>
      if bool_decide (out_column +:+ Py.str_of_nat n ∈ columns)
      then first_free_suffix columns out_column fuel' (S n)
      else Some n
  end.

(** [_get_output_column(table, out_column)], on the table's column names.
    The loop gets one more round than there are columns, which
    [get_output_column_total] shows is always enough. *)
Definition _get_output_column (columns : list string) (out_column : string)
  : option string :=
  let out_column := if bool_decide (out_column = "") then "result" else out_column in
  if bool_decide (out_column ∈ columns) then
    match first_free_suffix columns out_column (S (length columns)) 0 with
    | Some n => Some (out_column +:+ Py.str_of_nat n)
    | None => None
    end
  else Some (out_column +:+ "").

(* ================================================================= *)
(** ** Python values and the external capabilities *)

(** A Python object held in a cell of an [object] array, passed to a
    formula or returned by one. [None] and [NaN] are both the null
    [PyNull]; [int] and [float] are both [PyNum] (the Numeric canonical
    type is one type); [PyObj repr] is any other object, of which only
    [str(x) = repr] is observed: an object pandas reads neither as a
    number nor as a missing value, and has no dtype of its own for (a
    non-empty list or dict, an instance of a class of the user). *)
Inductive pyval :=
| PyNull
| PyNum (q : Q)
| PyBool (b : bool)
| PyStr (s : string)
| PyTimestamp (ns : Z)
| PyObj (repr : string).

(** [eval(code, globals, locals)] as a function of the locals. *)
Definition PyCode := gmap string pyval -> result pyval.

(** One resolved range of a formula input: the dict the formulas library
    keeps in [Ranges.ranges], with rows as [str] and columns as [int]. *)
Record Range := mkRange {
  r1 : string;
  r2 : string;
  n1 : Z;
  n2 : Z;
  ref : string
}.

(** What [flatten_single_element_lists] hands to the compiled formula. *)
Inductive Arg :=
| ArgList (cells : list pyval)
| ArgValue (v : pyval).

(** What the compiled formula returns: a numpy array or anything else. *)
Inductive Ret :=
| RetArray (items : list pyval)
| RetValue (v : pyval).

(** The compiled Excel formula: [code.inputs], an ordered mapping from
    token to [Ranges] object or [None], and the call [code( *args )]. *)
Record CompiledFormula := mkCompiled {
  inputs : list (string * option (list Range));
  call : list Arg -> result Ret
}.

(** What the module takes from its libraries without looking inside:
    Python's [str] of a number and of a timestamp, the numeric parser of
    [pd.to_numeric] on a non-empty [str] ([None]: it raises [ValueError];
    [Some None]: it reads a NaN), the Excel compiler
    [Parser().ast(formula)[1].compile()], and Python's [compile] for an
    expression, evaluated with the globals of [build_globals_for_eval]
    (in which the builtins of [to_disable] raise [_disabled], below). *)
Class External := {
  str_num : Q -> string;
  str_timestamp : Z -> string;
  parse_num : string -> option (option Q);
  excel_compile : string -> result CompiledFormula;
  python_compile : string -> result PyCode
}.

Definition is_null (v : pyval) : bool :=
  match v with PyNull => true | _ => false end.

Definition is_str (v : pyval) : bool :=
  match v with PyStr _ => true | _ => false end.

Definition is_empty_str (v : pyval) : bool :=
  match v with PyStr s => bool_decide (s = "") | _ => false end.

(** [util.is_bool_object(x)], and the bool of such an object. *)
Definition is_bool (v : pyval) : bool :=
  match v with PyBool _ => true | _ => false end.

Definition bool_of (v : pyval) : bool :=
  match v with PyBool b => b | _ => false end.

(** [str(x)]. *)
Definition py_str `{External} (v : pyval) : string :=
  match v with
  | PyNull => "nan"
  | PyNum q => str_num q
  | PyBool b => if b then "True" else "False"
  | PyStr s => s
  | PyTimestamp t => str_timestamp t
  | PyObj repr => repr
  end.

(* ================================================================= *)
(** ** float64 *)

(** [n / d] rounded to the nearest integer, ties to the even one. *)
Definition round_half_even (n d : Z) : Z :=
  let q := n / d in
  let r := n mod d in
  if 2 * r <? d then q
  else if d <? 2 * r then q + 1
  else if Z.even q then q else q + 1.

(** The exponent [e] of a positive rational: [2^e <= n / d < 2^(e+1)]. *)
Definition float64_exponent (n d : Z) : Z :=
  if d <=? n then Z.log2 (n / d) else - Z.log2_up ((d + n - 1) / n).

(** The double nearest to the positive rational [n / d]: the multiple of
    [2^(e - 52)] nearest to it, ties to the even one (IEEE 754 binary64,
    round to nearest even). *)
Definition float64_pos (n d : Z) : Q :=
  let e := float64_exponent n d in
  if 52 <=? e then
    let unit := 2 ^ (e - 52) in
    inject_Z (round_half_even n (d * unit) * unit)
  else
    let scale := 2 ^ (52 - e) in
    Qred (Qmake (round_half_even (n * scale) d) (Z.to_pos scale)).

(** The double nearest to a rational, as a rational. This is the
    conversion of an int64 to a double and the rounding of the exact
    result of a division of doubles. The doubles of this module are
    counts of nanoseconds and of days, far from the subnormal numbers and
    from infinity, which are not modelled. *)
Definition float64 (x : Q) : Q :=
  match Qnum x with
  | Z0 => 0%Q
  | Zpos n => float64_pos (Zpos n) (Zpos (Qden x))
  | Zneg n => (- float64_pos (Zpos n) (Zpos (Qden x)))%Q
  end.

Definition int64_max : Z := 2 ^ 63 - 1.

(* ================================================================= *)
(** ** pandas: Index, arrays, Series and DataFrame *)

(** The categories of a Categorical: a pandas [Index], whose dtype is
    numeric, datetime or object. *)
Inductive Index :=
| NumericIndex (labels : list Q)
| DatetimeIndex (labels : list Z)
| ObjectIndex (labels : list pyval).

Definition Index_values (idx : Index) : list pyval :=
  match idx with
  | NumericIndex l => PyNum <$> l
  | DatetimeIndex l => PyTimestamp <$> l
  | ObjectIndex l => l
  end.

Definition Index_length (idx : Index) : nat :=
  match idx with
  | NumericIndex l => length l
  | DatetimeIndex l => length l
  | ObjectIndex l => length l
  end.

Definition take_at {A} (l : list A) (positions : list Z) : list A :=
  omap (fun j => l !! Z.to_nat j) positions.

(** [idx.take(positions)]. *)
Definition Index_take (idx : Index) (positions : list Z) : Index :=
  match idx with
  | NumericIndex l => NumericIndex (take_at l positions)
  | DatetimeIndex l => DatetimeIndex (take_at l positions)
  | ObjectIndex l => ObjectIndex (take_at l positions)
  end.

(** The backing array of a column, by dtype. In [Numeric] (int64 or
    float64) and [Datetime] (datetime64[ns]) the null (NaN, NaT) is
    [None]; in [Categorical] it is the code [-1]. A number is a rational
    and an instant a count of nanoseconds since 1970-01-01. [Other] is an
    array of a dtype the module has no case for (timedelta64, period,
    interval, datetime64 with a time zone), given by its cells as Python
    objects. *)
Inductive Values :=
| Numeric (cells : list (option Q))
| Boolean (cells : list bool)
| Datetime (cells : list (option Z))
| Object (cells : list pyval)
| Categorical (categories : Index) (codes : list Z)
| Other (cells : list pyval).

Definition Values_length (v : Values) : nat :=
  match v with
  | Numeric l => length l
  | Boolean l => length l
  | Datetime l => length l
  | Object l => length l
  | Categorical _ codes => length codes
  | Other l => length l
  end.

Definition decode (categories : Index) (code : Z) : pyval :=
  if code <? 0 then PyNull
  else default PyNull (Index_values categories !! Z.to_nat code).

(** The cells as Python objects ([np.asarray(values, dtype=object)]). *)
Definition Values_cells (v : Values) : list pyval :=
  match v with
  | Numeric l => (fun c => match c with Some q => PyNum q | None => PyNull end) <$> l
  | Boolean l => PyBool <$> l
  | Datetime l => (fun c => match c with Some t => PyTimestamp t | None => PyNull end) <$> l
  | Object l => l
  | Categorical categories codes => decode categories <$> codes
  | Other l => l
  end.

Definition cell_at (v : Values) (i : nat) : pyval :=
  default PyNull (Values_cells v !! i).

Record Series := mkSeries {
  s_index : list Z;
  s_values : Values
}.

Definition RangeIndex (n : nat) : list Z := seqZ 0 (Z.of_nat n).

(** The dtype pandas infers for a list of Python objects: an empty list is
    float64; bools alone are bool; numbers, with nulls among them, are
    float64; timestamps, with nulls among them, are datetime64; anything
    else stays an object array. *)
Definition infer_values (cells : list pyval) : Values :=
  let is_bool v := match v with PyBool _ => true | _ => false end in
  let is_num v := match v with PyNum _ => true | _ => false end in
  let is_ts v := match v with PyTimestamp _ => true | _ => false end in
  match cells with
  | [] => Numeric []
  | _ =>
    if forallb is_bool cells then
      Boolean ((fun v => match v with PyBool b => b | _ => false end) <$> cells)
    else if forallb (fun v => is_num v || is_null v) cells && existsb is_num cells then
      Numeric ((fun v => match v with PyNum q => Some q | _ => None end) <$> cells)
    else if forallb (fun v => is_ts v || is_null v) cells && existsb is_ts cells then
      Datetime ((fun v => match v with PyTimestamp t => Some t | _ => None end) <$> cells)
    else Object cells
  end.

(** [pd.Series(list)]. *)
Definition pd_Series (cells : list pyval) : Series :=
  mkSeries (RangeIndex (length cells)) (infer_values cells).

(** [pd.Series(values)] for an array that already has its dtype. *)
Definition pd_Series_of_values (v : Values) : Series :=
  mkSeries (RangeIndex (Values_length v)) v.

(** [series.reset_index(drop=True, inplace=True)]. *)
Definition reset_index (s : Series) : Series :=
  mkSeries (RangeIndex (Values_length (s_values s))) (s_values s).

(** [series[i] = v] on an object Series whose index is a RangeIndex. *)
Definition Series_setitem (s : Series) (i : nat) (v : pyval) : Series :=
  match s_values s with
  | Object cells => mkSeries (s_index s) (Object (<[i := v]> cells))
  | _ => s
  end.

(** [series.astype(str)], on the cells as objects. *)
Definition astype_str `{External} (cells : list pyval) : list pyval :=
  (fun v => PyStr (py_str v)) <$> cells.

(** [array[mask] = x]. *)
Definition set_where (mask : list bool) (x : pyval) (cells : list pyval)
  : list pyval :=
  zip_with (fun (m : bool) v => if m then x else v) mask cells.

(** One element of [lib.maybe_convert_numeric(values, set())]: nulls and
    empty strings become NaN, bools count as 0 and 1, a [str] goes through
    the parser, other objects are a [TypeError]. *)
Definition numeric_of_object `{External} (v : pyval) : result (option Q) :=
  match v with
  | PyNull => Ok None
  | PyNum q => Ok (Some q)
  | PyBool b => Ok (Some (if b then 1%Q else 0%Q))
  | PyStr s =>
      if bool_decide (s = "") then Ok None
      else match parse_num s with
           | Some r => Ok r
           | None => Raise (PyError "ValueError" "Unable to parse string")
           end
  | PyTimestamp _ | PyObj _ => Raise (PyError "TypeError" "Invalid object type")
  end.

(** [pd.to_numeric(series)]: a numeric or bool Series comes back as it
    is, a datetime Series as its int64 nanoseconds (NaT is the smallest
    int64), an object or categorical Series is converted cell by cell;
    cells that are all bools make a bool array, any other mix an array of
    numbers. (The module calls it on object and categorical Series only;
    another dtype is read here through its objects.) *)
Definition pd_to_numeric `{External} (s : Series) : result Series :=
  match s_values s with
  | Numeric _ | Boolean _ => Ok s
  | Datetime cells =>
      Ok (mkSeries (s_index s)
            (Numeric ((fun c => Some (inject_Z (default (- 2 ^ 63) c))) <$> cells)))
  | Object _ | Categorical _ _ | Other _ =>
      let objects := Values_cells (s_values s) in
      let* cells := mapM numeric_of_object objects in
      if forallb is_bool objects && negb (bool_decide (objects = [])) then
        Ok (mkSeries (s_index s) (Boolean (bool_of <$> objects)))
      else Ok (mkSeries (s_index s) (Numeric cells))
  end.

(** Position of the first [x] in [l], or [-1]. *)
Fixpoint index_of `{EqDecision A} (x : A) (l : list A) : Z :=
  match l with
  | [] => -1
  | y :: l' =>
      if decide (x = y) then 0
      else let r := index_of x l' in if r <? 0 then -1 else r + 1
  end.

(** [pd.Categorical(values)] for values with an order and no nulls: the
    categories are the sorted distinct values, the codes their
    positions. *)
Definition factorize `{EqDecision A} (R : relation A) `{!RelDecision R}
    (l : list A) : list A * list Z :=
  let categories := merge_sort R (remove_dups l) in
  (categories, (fun x => index_of x categories) <$> l).

(** The codes in use, in increasing order, without the null code. *)
Definition used_codes (ncategories : nat) (codes : list Z) : list Z :=
  filter (fun j => j ∈ codes) (seqZ 0 (Z.of_nat ncategories)).

(** [cat.remove_unused_categories()]: keeps the categories that occur, in
    their order, and renumbers the codes. *)
Definition remove_unused_categories (categories : Index) (codes : list Z)
  : Index * list Z :=
  let used := used_codes (Index_length categories) codes in
  (Index_take categories used, (fun c => index_of c used) <$> codes).

(** [codes[keys]] on the Series of codes, whose index is 0..n-1 after
    [reset_index]: a lookup by label, here by position. A label that is
    not in the index is a [KeyError]. *)
Definition loc_getitem (codes : list Z) (keys : list Z) : result (list Z) :=
  mapM (fun k =>
          match (if k <? 0 then None else codes !! Z.to_nat k) with
          | Some c => Ok c
          | None => Raise (PyError "KeyError" "not in index")
          end) keys.

(** [values.rename_categories(new_categories, inplace=True)]. *)
Definition rename_categories (ncategories : nat) (codes : list Z)
    (new_categories : list string) : result Values :=
  if bool_decide (length new_categories = ncategories)
  then Ok (Categorical (ObjectIndex (PyStr <$> new_categories)) codes)
  else Raise (PyError "ValueError"
         "new categories need to have the same number of items as the old categories!").

(** [pd.api.types.infer_dtype(values, skipna=True) == "string"]. *)
Definition infer_dtype_is_string (labels : list pyval) : bool :=
  match labels with
  | [] => false
  | _ => forallb is_str labels
  end.

Record DataFrame := mkDataFrame {
  df_index : list Z;
  df_columns : list (string * Values)
}.

Definition columns (t : DataFrame) : list string := (df_columns t).*1.

(** [len(table)] and [table.shape]. *)
Definition nrows (t : DataFrame) : nat := length (df_index t).
Definition ncols (t : DataFrame) : nat := length (df_columns t).

(** [table.values]: one list of cells per row. *)
Definition DataFrame_values (t : DataFrame) : list (list pyval) :=
  (fun i => (fun c => cell_at c.2 i) <$> df_columns t) <$> seq 0 (nrows t).

(** [array.take(positions, fill_value=fill)]: the position [-1] gives
    the fill value. *)
Definition take_fill {A} (fill : A) (l : list A) (positions : list Z) : list A :=
  (fun j => if j <? 0 then fill else default fill (l !! Z.to_nat j)) <$> positions.

(** [series.reindex(index)._values]: the values of [s] laid out on
    [index]. A row label that [s] lacks gets a null, in the dtype of [s]
    where that dtype has a null; a bool array that gets one becomes an
    object array. A Series whose own index repeats a label cannot be
    reindexed. *)
Definition reindex (index : list Z) (s : Series) : result Values :=
  if bool_decide (NoDup (s_index s)) then
    let positions := (fun label => index_of label (s_index s)) <$> index in
    Ok (match s_values s with
        | Numeric l => Numeric (take_fill None l positions)
        | Boolean l =>
            if forallb (fun j => 0 <=? j) positions
            then Boolean (take_fill false l positions)
            else Object (take_fill PyNull (PyBool <$> l) positions)
        | Datetime l => Datetime (take_fill None l positions)
        | Object l => Object (take_fill PyNull l positions)
        | Categorical categories codes =>
            Categorical categories (take_fill (-1) codes positions)
        | Other l => Other (take_fill PyNull l positions)
        end)
  else Raise (PyError "ValueError" "cannot reindex from a duplicate axis").

(** The array [table[name] = series] stores: that of the Series when its
    index is the table's, its reindexing otherwise. *)
Definition align (index : list Z) (s : Series) : result Values :=
  if decide (index = s_index s) then Ok (s_values s)
  else reindex index s.

(** A column of [n] nulls in the dtype of [v], or in the object dtype
    when [v] is a bool array: what reindexing makes of a column for [n]
    labels it does not have. *)
Definition null_column (v : Values) (n : nat) : Values :=
  match v with
  | Numeric _ => Numeric (replicate n None)
  | Boolean _ => Object (replicate n PyNull)
  | Datetime _ => Datetime (replicate n None)
  | Object _ => Object (replicate n PyNull)
  | Categorical categories _ => Categorical categories (replicate n (-1))
  | Other _ => Other (replicate n PyNull)
  end.

(** [DataFrame._ensure_valid_index(series)]: a frame that has no row
    takes the index of the Series it is given, and its columns get a null
    for each of the new rows. *)
Definition _ensure_valid_index (t : DataFrame) (s : Series) : DataFrame :=
  if bool_decide (df_index t = []) && negb (bool_decide (s_index s = [])) then
    mkDataFrame (s_index s)
      ((fun c => (c.1, null_column c.2 (length (s_index s)))) <$> df_columns t)
  else t.

(** [table[name] = series]: replaces the column of that name, or appends
    a new last column. *)
Definition DataFrame_setitem (t : DataFrame) (name : string) (s : Series)
  : result DataFrame :=
  let t := _ensure_valid_index t s in
  let* v := align (df_index t) s in
  Ok (if bool_decide (name ∈ columns t) then
        mkDataFrame (df_index t)
          ((fun c => if bool_decide (c.1 = name) then (name, v) else c)
           <$> df_columns t)
      else mkDataFrame (df_index t) (df_columns t ++ [(name, v)])).

(* ================================================================= *)
(** ** formula.py *)

(** [build_builtins_for_eval]: the builtins it replaces, and what the
    replacement [_disabled] raises when the formula calls it. *)
Definition to_disable : list string :=
  ["__import__"; "breakpoint"; "compile"; "eval"; "exec"; "open"].

Definition _disabled (name : string) : exn :=
  UserVisibleError
    (i18n_trans "python.disabledFunction" "{name} is disabled"
       [("name", "builtins." +:+ name)]).

Section Formula.
Context `{External}.

(** [(nulls | (series == "")).all()], on the cells as objects. *)
Definition all_null_or_empty (cells : list pyval) : bool :=
  forallb id (zip_with orb (is_null <$> cells) (is_empty_str <$> cells)).

(** The exceptions [except (ValueError, TypeError)] catches. *)
Definition is_ValueError_or_TypeError (e : exn) : bool :=
  match e with
  | PyError cls _ => bool_decide (cls = "ValueError") || bool_decide (cls = "TypeError")
  | _ => false
  end.

Definition autocast_series_dtype (series : Series) : result Series :=
  match s_values series with
  | Object cells =>
      let nulls := is_null <$> cells in
      if all_null_or_empty cells then Ok series
      else
        match pd_to_numeric series with
        | Ok numbers => Ok numbers
        | Raise e =>
            if is_ValueError_or_TypeError e then
              let array := filter (fun x => negb (is_null x)) cells in
              if existsb (fun x => negb (is_str x)) array
              then Ok (mkSeries (s_index series)
                         (Object (set_where nulls PyNull (astype_str cells))))
              else Ok series
            else Raise e
        end
  | Categorical _ _ =>
      if all_null_or_empty (Values_cells (s_values series)) then Ok series
      else
        match pd_to_numeric series with
        | Ok numbers => Ok numbers
        | Raise e => if is_ValueError_or_TypeError e then Ok series else Raise e
        end
  | Numeric _ | Boolean _ | Datetime _ =>
      (* is_numeric_dtype holds for the bool dtype too *)
      Ok series
  | Other _ =>
      (* assert is_numeric_dtype(series) or is_datetime64_dtype(series) *)
      Raise (PyError "AssertionError" "")
  end.

(** [pd.api.types.is_numeric_dtype(categories.values)]. *)
Definition is_numeric_index (categories : Index) : bool :=
  match categories with NumericIndex _ => true | _ => false end.

(** [categories.dtype != object]. *)
Definition dtype_is_not_object (categories : Index) : bool :=
  match categories with ObjectIndex _ => false | _ => true end.

Definition sanitize_series (series : Series) : result Series :=
  let series := reset_index series in
  match s_values series with
  | Categorical categories codes =>
      let '(categories, codes) := remove_unused_categories categories codes in
      let series := mkSeries (s_index series) (Categorical categories codes) in
      if is_numeric_index categories then
        (* Un-categorize: make array of int/float *)
        pd_to_numeric series
      else if dtype_is_not_object categories
              || negb (infer_dtype_is_string (Index_values categories)) then
        (* Map from non-Strings to Strings *)
        let mapping := factorize String.le (py_str <$> Index_values categories) in
        let* selected := loc_getitem codes mapping.2 in
        let values := factorize Z.le selected in
        let* values := rename_categories (length values.1) values.2 mapping.1 in
        Ok (pd_Series_of_values values)
      else Ok series
  | Numeric _ | Boolean _ =>
      (* is_numeric_dtype holds for the bool dtype too *)
      Ok series
  | Datetime _ => Ok series
  | Object cells | Other cells =>
      (* Force it to be a str column: every object is either str or np.nan *)
      let ret := astype_str cells in
      let ret := set_where (is_null <$> cells) PyNull ret in
      Ok (mkSeries (s_index series) (Object ret))
  end.

(** The locals of one row: [dict(zip(colnames, row))]. *)
Definition row_locals (colnames : list string) (row : list pyval)
  : gmap string pyval :=
  Py.dict (zip colnames row).

(** The loop [for i, row in enumerate(table.values): newcol[i] = eval(...)]. *)
Fixpoint python_rows (code : PyCode) (colnames : list string)
    (rows : list (list pyval)) (i : nat) (newcol : Series) : result Series :=
  match rows with
  | [] => Ok newcol
  | row :: rows' =>
      let* v := code (row_locals colnames row) in
      python_rows code colnames rows' (S i) (Series_setitem newcol i v)
  end.

Definition python_formula (table : DataFrame) (formula : string)
  : result Series :=
  (* spaces to underscores in column names *)
  let colnames := Py.replace_space <$> columns table in
  let* code := python_compile formula in
  let newcol := pd_Series (replicate (nrows table) PyNull) in
  let* newcol := python_rows code colnames (DataFrame_values table) 0 newcol in
  let* newcol := sanitize_series newcol in
  autocast_series_dtype newcol.

Definition flatten_single_element_lists (x : list pyval) : Arg :=
  match x with
  | [v] => ArgValue v
  | _ => ArgList x
  end.

(** [ret.item()] of a numpy array: its only element. *)
Definition ndarray_item (items : list pyval) : result pyval :=
  match items with
  | [v] => Ok v
  | _ => Raise (PyError "ValueError"
                  "can only convert an array of size 1 to a Python scalar")
  end.

Definition eval_excel (code : CompiledFormula) (args : list Arg)
  : result pyval :=
  match call code args with
  | Raise (DispatcherError msg name cause_not_implemented) =>
      if cause_not_implemented then
        Raise (UserVisibleError
                 (i18n_trans "excel.functionNotImplemented"
                    "Function {name} not implemented" [("name", name)]))
      else Raise (DispatcherError msg name cause_not_implemented)
  | Raise e => Raise e
  | Ok (RetArray items) => ndarray_item items
  | Ok (RetValue v) => Ok v
  end.

(** [list(table.iloc[r1:r2, c1:c2].values.flat)]: the cells of the window,
    row by row. *)
Definition iloc_flat (table : DataFrame) (r1 r2 c1 c2 : Z) : list pyval :=
  concat ((fun row => Py.slice row c1 c2) <$> Py.slice (DataFrame_values table) r1 r2).

(** The body of the loop of [eval_excel_one_row], for one input. *)
Definition one_row_argument (table : DataFrame) (token : string)
    (obj : option (list Range)) : result Arg :=
  match obj with
  | None =>
      Raise (UserVisibleError
               (i18n_trans "excel.one_row.invalidCellRange"
                  "Invalid cell range: {token}" [("token", token)]))
  | Some ranges =>
      match ranges with
      | [range] =>
          (* Unpack start/end row/col *)
          let* r1 := Py.int (r1 range) in
          let r1 := r1 - 1 in
          let* r2 := Py.int (r2 range) in
          let c1 := n1 range - 1 in
          let c2 := n2 range in
          let nrows := Z.of_nat (nrows table) in
          let ncols := Z.of_nat (ncols table) in
          (* allow r2 > nrows: users use it to say SUM(A1:A99999) *)
          if (r1 <? 0) || (c1 <? 0) || (c2 >? ncols) || (r1 >=? r2) || (c1 >=? c2)
          then Raise (UserVisibleError
                        (i18n_trans "excel.one_row.badRef"
                           ("Excel range " +:+ Py.dquote +:+ "{ref}" +:+ Py.dquote
                            +:+ " is out of bounds")
                           [("ref", ref range)]))
          else Ok (flatten_single_element_lists (iloc_flat table r1 r2 c1 c2))
      | _ =>
          (* len(ranges) != 1 *)
          Raise (UserVisibleError
                   (i18n_trans "excel.one_row.cellRangeNotRectangular"
                      "Excel range must be a rectangular block of values" []))
      end
  end.

Definition eval_excel_one_row (code : CompiledFormula) (table : DataFrame)
  : result pyval :=
  (* Generate a list of input table values for each range in the expression *)
  let* formula_args := mapM (fun '(token, obj) => one_row_argument table token obj)
                            (inputs code) in
  (* evaluate the formula just once *)
  eval_excel code formula_args.

(** The body of the inner loop of [eval_excel_all_rows], for one range:
    the column indices [list(range(c1, c2))]. *)
Definition all_rows_range (table : DataFrame) (rng : Range) : result (list Z) :=
  if negb (bool_decide (r1 rng = "1")) || negb (bool_decide (r2 rng = "1")) then
    Raise (UserVisibleError
             (i18n_trans "excel.formulaFirstRowReference"
                "Excel formulas can only reference the first row when applied to all rows"
                []))
  else
    let c1 := n1 rng - 1 in
    let c2 := n2 rng in
    if (c1 <? 0) || (c2 >? Z.of_nat (length (columns table))) || (c1 >=? c2) then
      Raise (UserVisibleError
               (i18n_trans "excel.all_rows.badColumnRef"
                  ("Excel range " +:+ Py.dquote +:+ "{ref}" +:+ Py.dquote
                   +:+ " is out of bounds")
                  [("ref", ref rng)]))
    else Ok (seqZ c1 (c2 - c1)).

(** The body of the outer loop, for one input: what it appends to
    [col_idx]. *)
Definition all_rows_columns (table : DataFrame) (token : string)
    (obj : option (list Range)) : result (list (list Z)) :=
  match obj with
  | None =>
      Raise (UserVisibleError
               (i18n_trans "excel.badCellReference"
                  "Bad cell reference {token}" [("token", token)]))
  | Some ranges => mapM (all_rows_range table) ranges
  end.

Definition eval_excel_all_rows (code : CompiledFormula) (table : DataFrame)
  : result Series :=
  let* col_idx := mapM (fun '(token, obj) => all_rows_columns table token obj)
                       (inputs code) in
  let col_idx := concat col_idx in
  let* newcol :=
    mapM (fun row =>
            let* args_to_excel :=
              mapM (fun col =>
                      let* cells := mapM (Py.list_getitem row) col in
                      Ok (flatten_single_element_lists cells)) col_idx in
            eval_excel code args_to_excel)
         (DataFrame_values table) in
  Ok (pd_Series newcol).

Definition excel_formula (table : DataFrame) (formula : string)
    (all_rows : bool) : result Series :=
  match excel_compile formula with
  | Raise e =>
      if is_Exception e then
        Raise (UserVisibleError
                 (i18n_trans "excel.invalidFormula"
                    "Couldn't parse formula: {error}" [("error", exn_str e)]))
      else Raise e
  | Ok code =>
      if all_rows then
        let* newcol := eval_excel_all_rows code table in
        let* newcol := sanitize_series newcol in
        autocast_series_dtype newcol
      else
        (* the whole column is blank except first row *)
        let* value := eval_excel_one_row code table in
        Ok (pd_Series ([value] ++ replicate (Z.to_nat (Z.of_nat (nrows table) - 1)) PyNull))
  end.

(** Days from 1970-01-01 to the civil date [y]-[m]-[d] (proleptic
    Gregorian calendar), which is what [np.datetime64("y-m-d")] holds. *)
Definition days_from_civil (y m d : Z) : Z :=
  let y := if m <=? 2 then y - 1 else y in
  let era := y / 400 in
  let yoe := y - era * 400 in
  let doy := (153 * ((m + 9) mod 12) + 2) / 5 + d - 1 in
  let doe := yoe * 365 + yoe / 4 - yoe / 100 + doy in
  era * 146097 + doe - 719468.

(** [np.timedelta64(1, "D").astype("timedelta64[ns]")]. *)
Definition one_day : Z := 86400 * 10 ^ 9.

(** [np.datetime64("y-m-d").astype("datetime64[ns]")]. *)
Definition datetime64_ns (y m d : Z) : Z := days_from_civil y m d * one_day.

Definition excel_1900_min_date : Z := datetime64_ns 1900 1 1.
Definition excel_1900_zero_date : Z := datetime64_ns 1899 12 30.

(** Whether [instant - excel_1900_zero_date] leaves the int64 range of
    a timedelta64[ns]; pandas checks the subtraction, NaT apart. *)
Definition subtraction_overflows (cell : option Z) : bool :=
  match cell with
  | Some instant => int64_max <? instant - excel_1900_zero_date
  | None => false
  end.

(** One cell of [number_table]: [(instant - zero) / one_day] where
    [instant >= excel_1900_min_date], null elsewhere (a comparison with
    NaT is false). The quotient of two timedeltas is that of their counts
    of nanoseconds as doubles. *)
Definition excel_number (cell : option Z) : option Q :=
  match cell with
  | Some instant =>
      if excel_1900_min_date <=? instant
      then Some (float64 (float64 (inject_Z (instant - excel_1900_zero_date))
                          / float64 (inject_Z one_day)))
      else None
  | None => None
  end.

Definition is_datetime (v : Values) : bool :=
  match v with Datetime _ => true | _ => false end.

(** One column of [number_table]. A column of [datetime_table] that is not
    datetime64 (it shares its label with one that is) keeps the nulls the
    float table was created with. *)
Definition number_column (v : Values) : Values :=
  match v with
  | Datetime cells => Numeric (excel_number <$> cells)
  | _ => Numeric (replicate (Values_length v) None)
  end.

(** Whether [datetime_table - excel_1900_zero_date] overflows in one
    of the cells of the column. *)
Definition column_overflows (v : Values) : bool :=
  match v with
  | Datetime cells => existsb subtraction_overflows cells
  | _ => false
  end.

Definition _prepare_table_for_excel_formulas (table : DataFrame)
  : result DataFrame :=
  (* Extract a table of just the datetimes *)
  let colnames := (filter (fun c => is_datetime c.2 = true) (df_columns table)).*1 in
  if bool_decide (length colnames = 0%nat) then Ok table
  else
    let datetime_table :=
      filter (fun c => c.1 ∈ colnames) (df_columns table) in
    if existsb (fun c => column_overflows c.2) datetime_table then
      Raise (PyError "OverflowError" "Overflow in int64 addition")
    else
      Ok (mkDataFrame (df_index table)
            ((fun c => if bool_decide (c.1 ∈ colnames)
                       then (c.1, number_column c.2) else c)
             <$> df_columns table)).

(** The parameters of one call, after migration. *)
Record Params := mkParams {
  syntax : string;
  formula_excel : string;
  formula_python : string;
  all_rows : bool;
  out_column : string
}.

(** What [render] returns: [None], the table, an i18n message or the text
    of an exception. *)
Inductive Rendered :=
| RenderedNone
| RenderedTable (table : DataFrame)
| RenderedMessage (m : I18nMessage)
| RenderedText (s : string).

(** The last two statements of [render]. *)
Definition attach (table : DataFrame) (params : Params) (newcol : Series)
  : result Rendered :=
  match _get_output_column (columns table) (out_column params) with
  | Some out_column =>
      let* table := DataFrame_setitem table out_column newcol in
      Ok (RenderedTable table)
  | None => Raise (PyError "RuntimeError" "no free column name")
  end.

(** [render(table, params)]: [Raise e] is an exception that leaves
    [render]. *)
Definition render (table : option DataFrame) (params : Params)
  : result Rendered :=
  match table with
  | None => Ok RenderedNone (* no rows to process *)
  | Some table =>
      if bool_decide (syntax params = "excel") then
        let* input_table := _prepare_table_for_excel_formulas table in
        let formula := formula_excel params in
        if bool_decide (Py.strip formula = "") then Ok (RenderedTable table)
        else
          match excel_formula input_table formula (all_rows params) with
          | Ok newcol => attach table params newcol
          | Raise (UserVisibleError m) => Ok (RenderedMessage m)
          | Raise e => Raise e
          end
      else
        let formula := Py.strip (formula_python params) in
        if bool_decide (formula = "") then Ok (RenderedTable table)
        else
          match python_formula table formula with
          | Ok newcol => attach table params newcol
          | Raise (UserVisibleError m) => Ok (RenderedMessage m)
          | Raise e =>
              if is_Exception e then Ok (RenderedText (exn_str e)) else Raise e
          end
  end.

End Formula.

(* ================================================================= *)
(** ** The vocabulary of the specification *)

(** The error kinds of the specification's taxonomy. [RangeOutOfBounds]
    is also its [ColumnOutOfRange]. *)
Inductive ErrorKind :=
| InvalidFormula
| InvalidReference
| NonRectangularRange
| FirstRowOnlyViolation
| RangeOutOfBounds
| FunctionNotImplemented
| ExpressionRuntimeError
| DisabledCapability.

(** The kind a message of the module stands for, by its id. *)
Definition message_kind (m : I18nMessage) : option ErrorKind :=
  let id := msg_id m in
  if bool_decide (id = "excel.invalidFormula") then Some InvalidFormula
  else if bool_decide (id ∈ ["excel.one_row.invalidCellRange"; "excel.badCellReference"])
  then Some InvalidReference
  else if bool_decide (id = "excel.one_row.cellRangeNotRectangular")
  then Some NonRectangularRange
  else if bool_decide (id = "excel.formulaFirstRowReference")
  then Some FirstRowOnlyViolation
  else if bool_decide (id ∈ ["excel.one_row.badRef"; "excel.all_rows.badColumnRef"])
  then Some RangeOutOfBounds
  else if bool_decide (id = "excel.functionNotImplemented")
  then Some FunctionNotImplemented
  else if bool_decide (id = "python.disabledFunction") then Some DisabledCapability
  else None.

(** A range that AllRows mode accepts: it is on row 1 and its columns
    are columns of the table, at least one. *)
Definition first_row_range (table : DataFrame) (rng : Range) : Prop :=
  (r1 rng = "1") /\ (r2 rng = "1") /\
  (0 <= n1 rng - 1 < n2 rng) /\ (n2 rng <= Z.of_nat (ncols table)).


(** The canonical storage types of the data model: Numeric, Datetime,
    String (an object array of [str] and nulls) and Categorical with [str]
    labels, all of them in use. *)
Definition canonical (s : Series) : bool :=
  match s_values s with
  | Numeric _ | Datetime _ => true
  | Boolean _ => false
  | Object cells => forallb (fun v => is_null v || is_str v) cells
  | Categorical (ObjectIndex labels) codes =>
      forallb is_str labels
      && bool_decide (used_codes (length labels) codes = seqZ 0 (Z.of_nat (length labels)))
  | Categorical _ _ => false
  | Other _ => false
  end.

(** Codes that fit their categories: every code is the null code or a
    category, and every category occurs. *)
Definition tight (ncategories : nat) (codes : list Z) : Prop :=
  Forall (fun c => -1 <= c < Z.of_nat ncategories) codes /\
  forall j, 0 <= j < Z.of_nat ncategories -> j ∈ codes.

(** Sanitize, then autocast: what a computed column goes through. *)
Definition sanitize_then_autocast `{External} (x : Series) : result Series :=
  let* s := sanitize_series x in
  autocast_series_dtype s.

Definition not_rectangular : exn :=
  UserVisibleError
    (i18n_trans "excel.one_row.cellRangeNotRectangular"
       "Excel range must be a rectangular block of values" []).


(** Range resolution of one input in either mode, without its result. *)
Definition resolve_input (all_rows : bool) (table : DataFrame) (token : string)
    (obj : option (list Range)) : result unit :=
  if all_rows then let* _ := all_rows_columns table token obj in Ok tt
  else let* _ := one_row_argument table token obj in Ok tt.

(** A string of white space only (the empty string included). *)
Definition blank (s : string) : bool :=
  forallb Py.is_space (list_ascii_of_string s).

Definition first_row_only : exn :=
  UserVisibleError
    (i18n_trans "excel.formulaFirstRowReference"
       "Excel formulas can only reference the first row when applied to all rows"
       []).

Definition column_out_of_range (rng : Range) : exn :=
  UserVisibleError
    (i18n_trans "excel.all_rows.badColumnRef"
       ("Excel range " +:+ Py.dquote +:+ "{ref}" +:+ Py.dquote +:+ " is out of bounds")
       [("ref", ref rng)]).

(** The categorical columns that [sanitize_series] maps from non-strings
    to strings: after the unused categories are removed, the labels are
    not numbers and not all [str] (or there is none left). *)
Definition needs_remap (categories : Index) (codes : list Z) : bool :=
  let pruned := (remove_unused_categories categories codes).1 in
  negb (is_numeric_index pruned)
  && (dtype_is_not_object pruned
      || negb (infer_dtype_is_string (Index_values pruned))).

(** The input [autocast_series_dtype] asks for: in an object column every
    value is a [str] or null, and the categories of a categorical column
    are [str]. *)
Definition sane (s : Series) : bool :=
  match s_values s with
  | Object cells => forallb (fun v => is_null v || is_str v) cells
  | Categorical categories _ => forallb is_str (Index_values categories)
  | Numeric _ | Boolean _ | Datetime _ => true
  | Other _ => false
  end.

(** Whether [pd.to_numeric] converts these cells: each one is null, an
    empty string, a number, a bool or a string that parses. *)
Definition convertible `{External} (cells : list pyval) : bool :=
  forallb (fun v => is_Ok (numeric_of_object v)) cells.

(** The numbers [pd.to_numeric] makes of convertible cells. *)
Definition numbers_of `{External} (cells : list pyval) : list (option Q) :=
  (fun v => match numeric_of_object v with Ok n => n | Raise _ => None end) <$> cells.

(* ================================================================= *)
(** ** A small engine, to run the embedding on the test suite's examples *)

Module Demo.

(** The numbers of the examples are Python ints (and [Fraction]s where a
    division leaves one): [str] prints an integer by its digits and
    another rational as numerator, slash, denominator. *)
Definition str_Q (q : Q) : string :=
  let q := Qred q in
  if bool_decide (Qden q = 1%positive)
  then NilEmpty.string_of_int (Z.to_int (Qnum q))
  else NilEmpty.string_of_int (Z.to_int (Qnum q)) +:+ "/"
       +:+ NilEmpty.string_of_uint (Pos.to_uint (Qden q)).

(** The integer literals, which is as much of the numeric parser as the
    examples need. *)
Definition parse_integer (s : string) : option (option Q) :=
  match Py.int s with
  | Ok z => Some (Some (inject_Z z))
  | Raise _ => None
  end.

Definition cell (column : Z) (row : string) (ref : string) : Range :=
  mkRange row row column column ref.

Definition number (a : Arg) : Q :=
  match a with
  | ArgValue (PyNum q) => q
  | _ => 0%Q
  end.

Definition total (a : Arg) : Q :=
  match a with
  | ArgValue (PyNum q) => q
  | ArgList cells =>
      foldr (fun v acc => match v with PyNum q => Qred (q + acc) | _ => acc end) 0%Q cells
  | _ => 0%Q
  end.

(** The formulas of [tests/test_render.py] that the examples use. *)
Definition excel (formula : string) : result CompiledFormula :=
  if bool_decide (formula = "=A1*2") then
    Ok (mkCompiled [("A1", Some [cell 1 "1" "A1"])]
          (fun args => match args with
                       | [a] => Ok (RetArray [PyNum (Qred (number a * 2))])
                       | _ => Raise (PyError "TypeError" "wrong number of arguments")
                       end))
  else if bool_decide (formula = "=A1+B1") then
    Ok (mkCompiled [("A1", Some [cell 1 "1" "A1"]); ("B1", Some [cell 2 "1" "B1"])]
          (fun args => match args with
                       | [a; b] => Ok (RetArray [PyNum (Qred (number a + number b))])
                       | _ => Raise (PyError "TypeError" "wrong number of arguments")
                       end))
  else if bool_decide (formula = "=SUM(A2:A3)") then
    Ok (mkCompiled [("A2:A3", Some [mkRange "2" "3" 1 1 "A2:A3"])]
          (fun args => match args with
                       | [a] => Ok (RetArray [PyNum (total a)])
                       | _ => Raise (PyError "TypeError" "wrong number of arguments")
                       end))
  else if bool_decide (formula = "=SUM(A1:A3)") then
    Ok (mkCompiled [("A1:A3", Some [mkRange "1" "3" 1 1 "A1:A3"])]
          (fun args => match args with
                       | [a] => Ok (RetArray [PyNum (total a)])
                       | _ => Raise (PyError "TypeError" "wrong number of arguments")
                       end))
  else if bool_decide (formula = "=SUM(A1:B1)") then
    Ok (mkCompiled [("A1:B1", Some [mkRange "1" "1" 1 2 "A1:B1"])]
          (fun args => match args with
                       | [a] => Ok (RetArray [PyNum (total a)])
                       | _ => Raise (PyError "TypeError" "wrong number of arguments")
                       end))
  else if bool_decide (formula = "=SUM((A1,B1))") then
    Ok (mkCompiled [("(A1,B1)", Some [cell 1 "1" "A1"; cell 2 "1" "B1"])]
          (fun args => match args with
                       | [a] => Ok (RetArray [PyNum (total a)])
                       | _ => Raise (PyError "TypeError" "wrong number of arguments")
                       end))
  else if bool_decide (formula = "=A1=1") then
    Ok (mkCompiled [("A1", Some [cell 1 "1" "A1"])]
          (fun args => match args with
                       | [ArgValue (PyNum q)] => Ok (RetArray [PyBool (Qeq_bool q 1)])
                       | _ => Ok (RetArray [PyBool false])
                       end))
  else if bool_decide (formula = "=1+1") then
    Ok (mkCompiled [] (fun _ => Ok (RetValue (PyNum 2))))
  else if bool_decide (formula = "=A2*2") then
    Ok (mkCompiled [("A2", Some [cell 1 "2" "A2"])]
          (fun args => match args with
                       | [a] => Ok (RetArray [PyNum (Qred (number a * 2))])
                       | _ => Raise (PyError "TypeError" "wrong number of arguments")
                       end))
  else if bool_decide (formula = "=A0*2") then
    Ok (mkCompiled [("A0", None)] (fun _ => Ok (RetValue PyNull)))
  else if bool_decide (formula = "=DATEX(2019, 6, A1)") then
    Ok (mkCompiled [("A1", Some [cell 1 "1" "A1"])]
          (fun _ => Raise (DispatcherError "Failed DISPATCHING" "DATEX" true)))
  else Raise (PyError "FormulaError" ("Not a valid formula:" +:+ Py.newline +:+ "%s")).

(** The expressions of the test suite that the examples use. *)
Definition python (formula : string) : result PyCode :=
  if bool_decide (formula = "A*2") then
    Ok (fun locals => match locals !! "A" with
                      | Some (PyNum q) => Ok (PyNum (Qred (q * 2)))
                      | Some _ => Raise (PyError "TypeError" "unsupported operand")
                      | None => Raise (PyError "NameError" "name 'A' is not defined")
                      end)
  else if bool_decide (formula = "B*2") then
    Ok (fun locals => match locals !! "B" with
                      | Some (PyNum q) => Ok (PyNum (Qred (q * 2)))
                      | Some _ => Raise (PyError "TypeError" "unsupported operand")
                      | None => Raise (PyError "NameError" "name 'B' is not defined")
                      end)
  else if bool_decide (formula = "a_b") then
    Ok (fun locals => match locals !! "a_b" with
                      | Some v => Ok v
                      | None => Raise (PyError "NameError" "name 'a_b' is not defined")
                      end)
  else if bool_decide (formula = "open('x')") then
    Ok (fun _ => Raise (_disabled "open"))
  else if bool_decide (formula = "exit()") then
    Ok (fun _ => Raise (PyBaseException "SystemExit" "None"))
  else Raise (PyError "SyntaxError" "invalid syntax").

#[export] Instance engine : External := {
  str_num := str_Q;
  str_timestamp := fun t => NilEmpty.string_of_int (Z.to_int t);
  parse_num := parse_integer;
  excel_compile := excel;
  python_compile := python
}.

Definition ints (l : list Z) : Values := Numeric ((fun z => Some (inject_Z z)) <$> l).

(** [pd.DataFrame({"A": [1, 2]})] and friends. *)
Definition table_A12 : DataFrame :=
  mkDataFrame (RangeIndex 2) [("A", ints [1; 2])].
Definition table_A123 : DataFrame :=
  mkDataFrame (RangeIndex 3) [("A", ints [1; 2; 3])].
Definition table_AB : DataFrame :=
  mkDataFrame (RangeIndex 2) [("A", ints [1; 2]); ("B", ints [2; 3])].
Definition table_empty : DataFrame :=
  mkDataFrame (RangeIndex 0) [("A", Numeric [])].

(** Two columns whose names become the same identifier. *)
Definition table_shadow : DataFrame :=
  mkDataFrame (RangeIndex 2) [("a b", ints [1; 2]); ("a_b", ints [10; 20])].

(** The dates of [test_excel_timestamp_add], after a column of text. *)
Definition table_dates : DataFrame :=
  mkDataFrame (RangeIndex 3)
    [("name", Object [PyStr "x"; PyStr "y"; PyNull]);
     ("when", Datetime [Some (datetime64_ns 1900 1 1); Some (datetime64_ns 1899 12 31);
                        Some (datetime64_ns 2020 3 1)])].

(** A date after 2192-04-08, which a datetime64[ns] holds. *)
Definition table_2200 : DataFrame :=
  mkDataFrame (RangeIndex 1) [("A", Datetime [Some (datetime64_ns 2200 1 1)])].

Definition params_excel (formula : string) (all_rows : bool) : Params :=
  mkParams "excel" formula "" all_rows "".
Definition params_python (formula : string) : Params :=
  mkParams "python" "" formula false "".

End Demo.

(* ================================================================= *)
(** * Properties *)

(** ** The error monad *)

Lemma bind_Ok {A B} (m : result A) (k : A -> result B) (b : B) :
  bind m k = Ok b -> exists a, m = Ok a /\ k a = Ok b.
Proof. destruct m as [a|e]; simpl; [eauto | discriminate]. Qed.

Lemma mapM_app {A B} (f : A -> result B) (l1 l2 : list A) :
  mapM f (l1 ++ l2) =
  let* ys1 := mapM f l1 in let* ys2 := mapM f l2 in Ok (ys1 ++ ys2).
Proof.
  induction l1 as [|x l1 IH]; simpl.
  - destruct (mapM f l2); reflexivity.
  - destruct (f x) as [y|e]; simpl; [|reflexivity].
    rewrite IH. destruct (mapM f l1) as [ys1|e]; simpl; [|reflexivity].
    destruct (mapM f l2); reflexivity.
Qed.

Lemma mapM_all_Ok {A B} (f : A -> result B) (l : list A) :
  Forall (fun x => is_Ok (f x) = true) l -> exists ys, mapM f l = Ok ys.
Proof.
  induction 1 as [|x l Hx _ [ys IH]]; simpl; [eauto|].
  destruct (f x) as [y|e]; [|discriminate]. rewrite IH. simpl. eauto.
Qed.

(** ** Parameter migration *)

Section MigrateParams.
Implicit Types p : gmap string param_value.

Lemma migrate_params_not_int p v :
  p !! "syntax" = Some v -> isinstance_int v = false -> migrate_params p = Ok p.
Proof.
  intros Hp Hv. unfold migrate_params, Py.dict_getitem. rewrite Hp. simpl.
  by rewrite Hv.
Qed.

Lemma migrate_params_result p p' :
  migrate_params p = Ok p' ->
  exists v, p' !! "syntax" = Some v /\ isinstance_int v = false.
Proof.
  unfold migrate_params, Py.dict_getitem.
  destruct (p !! "syntax") as [v|] eqn:Hp; simpl; [|discriminate].
  destruct (isinstance_int v) eqn:Hv.
  - unfold _migrate_params_v0_to_v1, Py.dict_getitem. rewrite Hp. simpl.
    destruct (as_index v) as [i|]; simpl; [|discriminate].
    destruct (Py.list_getitem _ i) as [name|]; simpl; [|discriminate].
    intros [= <-]. exists (ParamStr name). by rewrite lookup_insert_eq.
  - intros [= <-]. eauto.
Qed.

(** C9. Migration rewrites the legacy numeric [syntax] (0 to "excel", 1 to
    "python") to its string form, leaves a configuration whose [syntax] is
    already a string as it is, and is idempotent on every configuration:
    migrating the result of a migration changes nothing (and a migration
    that raises, raises). *)
Theorem migrate_params_idempotent :
  (forall p, p !! "syntax" = Some (ParamInt 0) ->
     migrate_params p = Ok (<["syntax" := ParamStr "excel"]> p)) /\
  (forall p, p !! "syntax" = Some (ParamInt 1) ->
     migrate_params p = Ok (<["syntax" := ParamStr "python"]> p)) /\
  (forall p s, p !! "syntax" = Some (ParamStr s) -> migrate_params p = Ok p) /\
  (forall p, (let* p' := migrate_params p in migrate_params p') = migrate_params p).
Proof.
  repeat split.
  - intros p Hp. unfold migrate_params, _migrate_params_v0_to_v1, Py.dict_getitem.
    by rewrite Hp.
  - intros p Hp. unfold migrate_params, _migrate_params_v0_to_v1, Py.dict_getitem.
    by rewrite Hp.
  - intros p s Hp. by eapply migrate_params_not_int.
  - intros p. destruct (migrate_params p) as [p'|e] eqn:Hm; simpl; [|reflexivity].
    destruct (migrate_params_result _ _ Hm) as (v & Hv & Hint).
    by eapply migrate_params_not_int.
Qed.

(** The legacy configuration of [test_v0_excel] migrates to the current
    one, on which a second migration does nothing. *)
Lemma migrate_params_idempotent_witness :
  migrate_params
    (<["syntax" := ParamInt 0]> (<["out_column" := ParamStr "R"]> ∅))
  = Ok (<["syntax" := ParamStr "excel"]>
          (<["syntax" := ParamInt 0]> (<["out_column" := ParamStr "R"]> ∅))).
Proof.
  apply (proj1 migrate_params_idempotent). apply lookup_insert_eq.
Defined.

End MigrateParams.

(** ** Output column name *)

Section OutputColumn.
Implicit Types (columns : list string) (name : string).

Lemma str_of_nat_inj : Inj (=) (=) Py.str_of_nat.
Proof.
  intros n m Heq. unfold Py.str_of_nat in Heq.
  assert (Some (Nat.to_uint n) = Some (Nat.to_uint m)) as [= Hu].
  { by rewrite <- !NilEmpty.usu, Heq. }
  by rewrite <- (Unsigned.of_to n), <- (Unsigned.of_to m), Hu.
Qed.

Lemma append_empty_r name : name +:+ "" = name.
Proof.
  induction name as [|c s IH]; [done|].
  change (String c (s +:+ "") = String c s). by rewrite IH.
Qed.

(** What the loop returns is free, and everything it stepped over is
    taken. *)
Lemma first_free_suffix_Some columns name fuel n k :
  first_free_suffix columns name fuel n = Some k ->
  (n <= k)%nat /\ ((name +:+ Py.str_of_nat k) ∉ columns) /\
  forall m, (n <= m < k)%nat -> (name +:+ Py.str_of_nat m) ∈ columns.
Proof.
  revert n. induction fuel as [|fuel IH]; intros n; simpl; [discriminate|].
  case_bool_decide as Hin.
  - intros Hk. destruct (IH _ Hk) as (Hle & Hfree & Hbelow).
    split; [lia|]. split; [done|]. intros m Hm.
    destruct (decide (m = n)) as [->|]; [done|]. apply Hbelow. lia.
  - intros [= <-]. split; [lia|]. split; [done|]. intros m Hm. lia.
Qed.

(** When the fuel runs out, every candidate tried was a column. *)
Lemma first_free_suffix_None columns name fuel n :
  first_free_suffix columns name fuel n = None ->
  forall m, (n <= m < n + fuel)%nat -> (name +:+ Py.str_of_nat m) ∈ columns.
Proof.
  revert n. induction fuel as [|fuel IH]; intros n; simpl; [intros _ m Hm; lia|].
  case_bool_decide as Hin; [|discriminate].
  intros Hk m Hm. destruct (decide (m = n)) as [->|]; [done|].
  apply (IH _ Hk). lia.
Qed.

(** The loop ends: among [length columns + 1] distinct candidates one is
    not a column. *)
Lemma first_free_suffix_total columns name :
  is_Some (first_free_suffix columns name (S (length columns)) 0).
Proof.
  destruct (first_free_suffix columns name (S (length columns)) 0) eqn:Hk; [eauto|].
  exfalso.
  pose proof (first_free_suffix_None _ _ _ _ Hk) as Hall.
  set (candidates := (fun m => name +:+ Py.str_of_nat m) <$> seq 0 (S (length columns))).
  assert (NoDup candidates) as Hnd.
  { apply NoDup_fmap_2; [|apply NoDup_seq].
    intros a b Hab. apply str_of_nat_inj. by eapply String.app_inj. }
  assert (candidates ⊆+ columns) as Hsub.
  { apply NoDup_submseteq; [done|]. intros x Hx.
    apply list_elem_of_fmap in Hx as (m & -> & Hm).
    apply elem_of_seq in Hm. apply Hall. lia. }
  apply submseteq_length in Hsub.
  unfold candidates in Hsub. rewrite length_fmap, length_seq in Hsub. lia.
Qed.

Lemma get_output_column_total columns requested :
  is_Some (_get_output_column columns requested).
Proof.
  unfold _get_output_column.
  set (name := if bool_decide (requested = "") then "result" else requested).
  case_bool_decide; [|eauto].
  destruct (first_free_suffix_total columns name) as [n ->]. eauto.
Qed.

(** C8. An empty requested name defaults to "result"; a name that is not
    a column is used as it is; on a collision the name gets the smallest
    [n >= 0] for which name followed by [n] is not a column. With columns
    A, result the default request gives result0, and with A, result,
    result0 it gives result1. *)
Theorem get_output_column_spec :
  (forall columns requested,
     let name := if decide (requested = "") then "result" else requested in
     (name ∉ columns -> _get_output_column columns requested = Some name) /\
     (name ∈ columns ->
        exists n : nat,
          _get_output_column columns requested = Some (name +:+ Py.str_of_nat n) /\
          ((name +:+ Py.str_of_nat n) ∉ columns) /\
          forall m : nat, (m < n)%nat -> (name +:+ Py.str_of_nat m) ∈ columns)) /\
  _get_output_column ["A"; "result"] "" = Some "result0" /\
  _get_output_column ["A"; "result"; "result0"] "" = Some "result1".
Proof.
  split; [|split; reflexivity].
  intros columns requested name. unfold _get_output_column.
  replace (if bool_decide (requested = "") then "result" else requested) with name
    by (subst name; by destruct (decide (requested = "")); [rewrite bool_decide_eq_true_2 | rewrite bool_decide_eq_false_2]).
  split; intros Hname.
  - rewrite bool_decide_eq_false_2 by done. by rewrite append_empty_r.
  - rewrite bool_decide_eq_true_2 by done.
    destruct (first_free_suffix_total columns name) as [n Hn]. rewrite Hn.
    destruct (first_free_suffix_Some _ _ _ _ _ Hn) as (_ & Hfree & Hbelow).
    exists n. split; [done|]. split; [done|]. intros m Hm. apply Hbelow. lia.
Qed.

(** A request for a name that two columns already use. *)
Lemma get_output_column_spec_witness :
  exists n : nat,
    _get_output_column ["X"; "X0"; "A"] "X" = Some ("X" +:+ Py.str_of_nat n) /\
    (("X" +:+ Py.str_of_nat n) ∉ ["X"; "X0"; "A"]) /\
    forall m : nat, (m < n)%nat -> ("X" +:+ Py.str_of_nat m) ∈ ["X"; "X0"; "A"].
Proof.
  apply (proj2 (proj1 get_output_column_spec ["X"; "X0"; "A"] "X")).
  apply list_elem_of_here.
Defined.

End OutputColumn.

(** ** The locals of a row in Python mode *)

Section PythonLocals.
Context {V : Type}.
Implicit Types (pairs : list (string * V)) (m : gmap string V).

Lemma dict_fold_absent m pairs k :
  k ∉ pairs.*1 ->
  foldl (fun m kv => <[kv.1 := kv.2]> m) m pairs !! k = m !! k.
Proof.
  revert m. induction pairs as [|[k' v'] pairs IH]; intros m Hk; simpl; [done|].
  rewrite fmap_cons, not_elem_of_cons in Hk. destruct Hk as [Hne Hk].
  rewrite IH by done. simpl in *. by rewrite lookup_insert_ne.
Qed.

(** In [dict(pairs)] a key holds the value of its last pair. *)
Lemma dict_lookup_last pairs1 pairs2 k (v : V) :
  k ∉ pairs2.*1 -> Py.dict (pairs1 ++ (k, v) :: pairs2) !! k = Some v.
Proof.
  intros Hk. unfold Py.dict. rewrite foldl_app. simpl.
  rewrite dict_fold_absent by done. apply lookup_insert_eq.
Qed.

End PythonLocals.

(** C10. In Python mode the locals of a row bind an identifier (a column
    name with its spaces replaced by underscores) to the cell of the
    rightmost column that has this identifier: the columns to its left
    with the same identifier are shadowed. With columns "a b" and "a_b",
    the formula [a_b] reads the second. *)
Theorem python_locals_rightmost :
  (forall (names : list string) (row : list pyval) (j : nat) (ident : string)
          (v : pyval),
     (Py.replace_space <$> names) !! j = Some ident ->
     row !! j = Some v ->
     (forall j', (j < j')%nat -> (j' < length row)%nat ->
                 (Py.replace_space <$> names) !! j' <> Some ident) ->
     row_locals (Py.replace_space <$> names) row !! ident = Some v) /\
  Py.replace_space "a b" = Py.replace_space "a_b" /\
  @python_formula Demo.engine Demo.table_shadow "a_b"
  = Ok (mkSeries (RangeIndex 2) (Numeric [Some (inject_Z 10); Some (inject_Z 20)])).
Proof.
  split; [|split; reflexivity].
  intros names row j ident v Hident Hv Hright.
  set (colnames := Py.replace_space <$> names) in *.
  assert (zip colnames row !! j = Some (ident, v)) as Hj.
  { by apply lookup_zip_Some. }
  unfold row_locals. rewrite <- (take_drop_middle _ _ _ Hj).
  apply dict_lookup_last. intros Hin.
  apply list_elem_of_fmap in Hin as ([k w] & Hk & Hin). simpl in Hk. subst k.
  apply list_elem_of_lookup in Hin as [i Hi].
  rewrite lookup_drop in Hi. apply lookup_zip_Some in Hi as [Hk Hw].
  apply (Hright (S j + i)%nat); [lia | by eapply lookup_lt_Some | done].
Qed.

(** The second row of the table with columns "a b" and "a_b". *)
Lemma python_locals_rightmost_witness :
  row_locals (Py.replace_space <$> ["a b"; "a_b"]) [PyNum 2; PyNum 20] !! "a_b"
  = Some (PyNum 20).
Proof.
  apply (proj1 python_locals_rightmost ["a b"; "a_b"] [PyNum 2; PyNum 20] 1%nat).
  - reflexivity.
  - reflexivity.
  - intros j' Hlt Hlen. simpl in Hlen. lia.
Defined.

(** ** Range resolution *)

Section RangeResolution.
Implicit Types (table : DataFrame) (rng : Range) (ranges : list Range).


Lemma length_DataFrame_values table :
  length (DataFrame_values table) = nrows table.
Proof. unfold DataFrame_values. by rewrite length_fmap, length_seq. Qed.





Lemma all_rows_guard (cs ce n : Z) :
  (cs <? 0) || (ce >? n) || (cs >=? ce) = false <-> 0 <= cs < ce /\ ce <= n.
Proof.
  rewrite !orb_false_iff, !Z.ltb_ge, Z.gtb_ltb, Z.geb_leb, Z.ltb_ge, Z.leb_gt. lia.
Qed.

Lemma all_rows_range_never_not_rectangular table rng :
  all_rows_range table rng <> Raise not_rectangular.
Proof.
  unfold all_rows_range.
  destruct (negb _ || negb _); [discriminate|].
  destruct (_ || _ || _); discriminate.
Qed.

Lemma mapM_never {A B} (f : A -> result B) (e : exn) (l : list A) :
  (forall x, f x <> Raise e) -> mapM f l <> Raise e.
Proof.
  intros Hf. induction l as [|x l IH]; simpl; [discriminate|].
  destruct (f x) as [y|e'] eqn:Hx; simpl.
  - destruct (mapM f l) as [ys|e']; simpl; [discriminate|].
    intros [= ->]. by apply IH.
  - intros [= ->]. by apply (Hf x).
Qed.

(** C2. In SingleRow mode an input whose token resolves to a number of
    ranges other than one fails with NonRectangularRange, and so does the
    whole evaluation when the inputs before it resolve. AllRows mode
    misses the check: an input whose ranges all lie on row 1 within the
    columns resolves, each range giving its own list of column indices,
    and no input ever fails with NonRectangularRange. So the formula
    [=SUM((A1,B1))], whose one input has two ranges, is called with two
    arguments on each row, and the [TypeError] of that call leaves
    [render], where SingleRow mode returns the message. *)
Theorem non_rectangular_check_missing_in_all_rows :
  (forall table token ranges,
     length ranges <> 1%nat ->
     one_row_argument table token (Some ranges) = Raise not_rectangular) /\
  (forall code table before token ranges after,
     inputs code = before ++ (token, Some ranges) :: after ->
     Forall (fun i => is_Ok (one_row_argument table i.1 i.2) = true) before ->
     length ranges <> 1%nat ->
     eval_excel_one_row code table = Raise not_rectangular) /\
  (forall table token ranges,
     Forall (first_row_range table) ranges ->
     all_rows_columns table token (Some ranges)
     = Ok ((fun rng => seqZ (n1 rng - 1) (n2 rng - (n1 rng - 1))) <$> ranges)) /\
  (forall table token obj,
     all_rows_columns table token obj <> Raise not_rectangular) /\
  (let ranges := [Demo.cell 1 "1" "A1"; Demo.cell 2 "1" "B1"] in
   let render_SUM all_rows :=
     @render Demo.engine (Some Demo.table_AB)
       (Demo.params_excel "=SUM((A1,B1))" all_rows) in
   resolve_input false Demo.table_AB "(A1,B1)" (Some ranges) = Raise not_rectangular /\
   resolve_input true Demo.table_AB "(A1,B1)" (Some ranges) = Ok tt /\
   (exists m, not_rectangular = UserVisibleError m /\
              render_SUM false = Ok (RenderedMessage m)) /\
   (exists msg, render_SUM true = Raise (PyError "TypeError" msg))).
Proof.
  split; [|split; [|split; [|split]]].
  - intros table token [|rng [|rng' ranges]] Hlen; simpl in *; done.
  - intros code table before token ranges after Hinputs Hbefore Hlen.
    unfold eval_excel_one_row. rewrite Hinputs, mapM_app.
    destruct (mapM_all_Ok (fun '(token, obj) => one_row_argument table token obj) before)
      as [args ->].
    { eapply Forall_impl; [exact Hbefore|]. by intros [t o]. }
    simpl. by destruct ranges as [|rng [|rng' ranges]].
  - intros table token ranges Hall. simpl.
    induction Hall as [|rng ranges (Hr1 & Hr2 & Hcols & Hn) _ IH]; simpl; [done|].
    rewrite IH. unfold all_rows_range at 1.
    rewrite !bool_decide_eq_true_2 by done. simpl.
    assert (length (columns table) = ncols table) as -> by apply length_fmap.
    by rewrite (proj2 (all_rows_guard _ _ _)) by lia.
  - intros table token [ranges|]; simpl; [|discriminate].
    apply mapM_never, all_rows_range_never_not_rectangular.
  - cbv zeta. split; [reflexivity|]. split; [reflexivity|]. split.
    + eexists. split; reflexivity.
    + eexists. vm_compute. reflexivity.
Qed.

(** The token [(A1,B1)], of two ranges, in SingleRow mode. *)
Lemma non_rectangular_check_missing_in_all_rows_witness :
  one_row_argument Demo.table_AB "(A1,B1)"
    (Some [Demo.cell 1 "1" "A1"; Demo.cell 2 "1" "B1"])
  = Raise not_rectangular.
Proof.
  apply (proj1 non_rectangular_check_missing_in_all_rows Demo.table_AB "(A1,B1)").
  simpl. lia.
Defined.

End RangeResolution.

(** ** Doubles *)

Section Float64.

Lemma round_half_even_exact (k d : Z) : 0 < d -> round_half_even (k * d) d = k.
Proof.
  intros Hd. unfold round_half_even.
  rewrite Z.div_mul, Z.mod_mul by lia.
  destruct (Z.ltb_spec (2 * 0) d); [done | lia].
Qed.

Lemma Qred_inject_Z (k : Z) : Qred (inject_Z k) = inject_Z k.
Proof.
  unfold Qred, inject_Z.
  pose proof (Z.ggcd_gcd k 1) as Hgcd.
  pose proof (Z.ggcd_correct_divisors k 1) as Hdiv.
  destruct (Z.ggcd k 1) as [g [a b]]. simpl in *.
  rewrite Z.gcd_1_r in Hgcd. subst g. destruct Hdiv as [Ha Hb].
  replace a with k by lia. by replace b with 1 by lia.
Qed.

Lemma Qred_scaled (k scale : Z) :
  0 < scale -> Qred (Qmake (k * scale) (Z.to_pos scale)) = inject_Z k.
Proof.
  intros Hscale. rewrite <- Qred_inject_Z. apply Qred_complete.
  unfold Qeq, inject_Z. simpl. rewrite Z2Pos.id by done. lia.
Qed.

(** A whole number below [2^53] is a double, whatever fraction gives it. *)
Lemma float64_pos_whole (k d : Z) :
  0 < d -> 0 < k < 2 ^ 53 -> float64_pos (k * d) d = inject_Z k.
Proof.
  intros Hd Hk. unfold float64_pos, float64_exponent.
  destruct (Z.leb_spec d (k * d)) as [_|Hlt]; [|nia].
  rewrite Z.div_mul by lia.
  assert (Z.log2 k < 53) as Hlog by (apply Z.log2_lt_pow2; lia).
  destruct (Z.leb_spec 52 (Z.log2 k)) as [Hbig|Hsmall].
  - replace (Z.log2 k - 52) with 0 by lia. simpl (2 ^ 0).
    rewrite !Z.mul_1_r. by rewrite round_half_even_exact.
  - assert (0 < 2 ^ (52 - Z.log2 k)) by (apply Z.pow_pos_nonneg; lia).
    replace (k * d * 2 ^ (52 - Z.log2 k)) with (k * 2 ^ (52 - Z.log2 k) * d) by lia.
    rewrite round_half_even_exact by done. by apply Qred_scaled.
Qed.

(** An int that is a multiple of [2^j] below [2^(53+j)] is a double. *)
Lemma float64_exact (a j : Z) :
  0 <= j -> 0 < a < 2 ^ (53 + j) -> (2 ^ j | a) ->
  float64 (inject_Z a) = inject_Z a.
Proof.
  intros Hj Ha Hdiv. unfold float64, inject_Z. cbn [Qnum Qden].
  destruct a as [|p|p]; [lia| |lia].
  unfold float64_pos, float64_exponent.
  destruct (Z.leb_spec 1 (Z.pos p)) as [_|Hlt]; [|lia].
  rewrite Z.div_1_r.
  assert (Z.log2 (Z.pos p) < 53 + j) as Hlog by (apply Z.log2_lt_pow2; lia).
  destruct (Z.leb_spec 52 (Z.log2 (Z.pos p))) as [Hbig|Hsmall].
  - set (e := Z.log2 (Z.pos p)) in *.
    assert (0 < 2 ^ (e - 52)) as Hunit by (apply Z.pow_pos_nonneg; lia).
    assert (2 ^ (e - 52) | Z.pos p) as [c Hc].
    { etransitivity; [|exact Hdiv].
      exists (2 ^ (j - (e - 52))). rewrite <- Z.pow_add_r by lia. f_equal. lia. }
    rewrite Z.mul_1_l. rewrite Hc at 1. rewrite round_half_even_exact by done.
    by rewrite <- Hc.
  - assert (0 < 2 ^ (52 - Z.log2 (Z.pos p))) by (apply Z.pow_pos_nonneg; lia).
    rewrite <- (Z.mul_1_r (Z.pos p * _)).
    rewrite round_half_even_exact by lia. by apply Qred_scaled.
Qed.

(** The quotient of two doubles that is a whole number below [2^53] is
    computed without error. *)
Lemma float64_quotient (k d : Z) :
  0 < d -> 0 < k < 2 ^ 53 ->
  float64 (inject_Z (k * d) / inject_Z d) = inject_Z k.
Proof.
  intros Hd Hk. destruct d as [|d|d]; [lia| |lia].
  unfold float64, Qdiv, Qmult, Qinv, inject_Z. cbn [Qnum Qden].
  rewrite Z.mul_1_r, Pos.mul_1_l.
  destruct (k * Z.pos d) as [|p|p] eqn:Hp; [nia| |nia].
  rewrite <- Hp. by apply float64_pos_whole.
Qed.

End Float64.

(** ** Preparing the table for Excel formulas *)

Section PrepareTable.
Implicit Types (table : DataFrame) (v : Values).

Lemma NoDup_fst_unique {A B} (l : list (A * B)) (x : A) (y1 y2 : B) :
  NoDup l.*1 -> (x, y1) ∈ l -> (x, y2) ∈ l -> y1 = y2.
Proof.
  induction l as [|[a b] l IH]; intros Hnd H1 H2.
  - by apply elem_of_nil in H1.
  - rewrite fmap_cons in Hnd. apply NoDup_cons in Hnd as [Hnotin Hnd].
    apply elem_of_cons in H1 as [Heq1|H1]; apply elem_of_cons in H2 as [Heq2|H2];
      simplify_eq.
    + done.
    + exfalso. apply Hnotin. apply list_elem_of_fmap. by exists (a, y2).
    + exfalso. apply Hnotin. apply list_elem_of_fmap. by exists (a, y1).
    + by apply IH.
Qed.

Lemma one_day_factors : one_day = 1318359375 * 2 ^ 16.
Proof. reflexivity. Qed.

Lemma excel_1900_zero_date_days : excel_1900_zero_date = -25569 * one_day.
Proof. reflexivity. Qed.

Lemma excel_1900_min_date_days : excel_1900_min_date = -25567 * one_day.
Proof. reflexivity. Qed.

(** X7. The serial of a midnight is a whole number, computed without
    rounding: at [days] days after 1970-01-01, from 1900-01-01 on and as
    far as the subtraction does not overflow, it is [days + 25569], the
    days since 1899-12-30, so 1900-01-01 is day 2. An instant before
    1900-01-01 and the null NaT give null. Other instants are rounded to
    a double: one nanosecond after the midnight of 2020-03-01 has the
    serial of that midnight. *)
Theorem excel_number_whole_days :
  (forall days,
     -25567 <= days ->
     (days + 25569) * one_day <= int64_max ->
     excel_number (Some (days * one_day)) = Some (inject_Z (days + 25569))) /\
  (forall instant,
     instant < datetime64_ns 1900 1 1 -> excel_number (Some instant) = None) /\
  excel_number None = None /\
  excel_number (Some (datetime64_ns 2020 3 1 + 1)) = Some (inject_Z 43891).
Proof.
  split; [|split; [|split]]; [| |reflexivity|by vm_compute].
  - intros days Hmin Hmax. unfold excel_number.
    rewrite excel_1900_min_date_days, excel_1900_zero_date_days.
    destruct (Z.leb_spec (-25567 * one_day) (days * one_day)) as [_|Hlt].
    2:{ unfold one_day in Hlt. lia. }
    f_equal.
    replace (days * one_day - -25569 * one_day) with ((days + 25569) * one_day) by lia.
    assert (0 < one_day) as Hday by done.
    assert (float64 (inject_Z one_day) = inject_Z one_day) as -> by (by vm_compute).
    rewrite (float64_exact _ 16).
    + apply float64_quotient; [done|]. unfold int64_max, one_day in Hmax. lia.
    + done.
    + unfold int64_max in Hmax. split; [unfold one_day; lia|].
      eapply Z.le_lt_trans; [exact Hmax|]. done.
    + rewrite one_day_factors. exists ((days + 25569) * 1318359375). lia.
  - intros instant Hlt. unfold excel_number.
    destruct (Z.leb_spec excel_1900_min_date instant) as [Hle|_]; [|done].
    unfold excel_1900_min_date in Hle. lia.
Qed.

Lemma prepare_ok table :
  Forall (fun c => column_overflows c.2 = false) (df_columns table) ->
  let colnames := (filter (fun c => is_datetime c.2 = true) (df_columns table)).*1 in
  _prepare_table_for_excel_formulas table
  = Ok (if bool_decide (length colnames = 0%nat) then table
        else mkDataFrame (df_index table)
               ((fun c => if bool_decide (c.1 ∈ colnames)
                          then (c.1, number_column c.2) else c)
                <$> df_columns table)).
Proof.
  intros Hall colnames. unfold _prepare_table_for_excel_formulas. fold colnames.
  case_bool_decide; [done|].
  assert (existsb (fun c : string * Values => column_overflows c.2)
            (filter (fun c => c.1 ∈ colnames) (df_columns table)) = false)
    as ->; [|done].
  apply not_true_iff_false. intros Hex. apply existsb_exists in Hex as (c & Hin & Hc).
  apply list_elem_of_In, list_elem_of_filter in Hin as [_ Hin].
  rewrite Forall_forall in Hall. rewrite (Hall c Hin) in Hc. discriminate.
Qed.

Lemma prepare_raises table (name : string) cells :
  (name, Datetime cells) ∈ df_columns table ->
  existsb subtraction_overflows cells = true ->
  _prepare_table_for_excel_formulas table
  = Raise (PyError "OverflowError" "Overflow in int64 addition").
Proof.
  intros Hin Hcells. unfold _prepare_table_for_excel_formulas.
  set (colnames := (filter _ (df_columns table)).*1).
  assert (name ∈ colnames) as Hname.
  { apply list_elem_of_fmap. exists (name, Datetime cells). split; [done|].
    by apply list_elem_of_filter. }
  case_bool_decide as Hlen.
  { apply length_zero_iff_nil in Hlen. rewrite Hlen in Hname.
    by apply elem_of_nil in Hname. }
  assert (existsb (fun c : string * Values => column_overflows c.2)
            (filter (fun c => c.1 ∈ colnames) (df_columns table)) = true)
    as ->; [|done].
  apply existsb_exists. exists (name, Datetime cells). split; [|done].
  by apply list_elem_of_In, list_elem_of_filter.
Qed.

Lemma prepare_no_datetime table :
  Forall (fun c => is_datetime c.2 = false) (df_columns table) ->
  _prepare_table_for_excel_formulas table = Ok table.
Proof.
  intros Hall. unfold _prepare_table_for_excel_formulas.
  rewrite bool_decide_eq_true_2; [done|]. rewrite length_fmap.
  apply length_zero_iff_nil.
  destruct (filter _ (df_columns table)) as [|c l] eqn:Hfilter; [done|].
  exfalso. assert (c ∈ filter (fun c => is_datetime c.2 = true) (df_columns table))
    as Hin by (rewrite Hfilter; left).
  apply list_elem_of_filter in Hin as [Hc Hin].
  rewrite Forall_forall in Hall. rewrite (Hall c Hin) in Hc. discriminate.
Qed.

(** X6. Preparation raises (the OverflowError of the subtraction) exactly
    when an instant of a Datetime column lies more than [2^63 - 1]
    nanoseconds after 1899-12-30. Otherwise, for a table whose column
    labels are distinct, it turns every Datetime column into the Numeric
    column of its serials and leaves the index, the labels and every
    other column as they were; a table without a Datetime column comes
    back as it is; and no Datetime column is left, so preparing the
    prepared table changes nothing. *)
Theorem prepare_table_in_range table :
  (is_Ok (_prepare_table_for_excel_formulas table) = true
   <-> Forall (fun c => column_overflows c.2 = false) (df_columns table)) /\
  (forall prepared,
     NoDup (columns table) ->
     _prepare_table_for_excel_formulas table = Ok prepared ->
     df_index prepared = df_index table /\
     columns prepared = columns table /\
     (forall i name cells,
        df_columns table !! i = Some (name, Datetime cells) ->
        df_columns prepared !! i = Some (name, Numeric (excel_number <$> cells))) /\
     (forall i name v,
        df_columns table !! i = Some (name, v) -> is_datetime v = false ->
        df_columns prepared !! i = Some (name, v)) /\
     (Forall (fun c => is_datetime c.2 = false) (df_columns table) -> prepared = table) /\
     Forall (fun c => is_datetime c.2 = false) (df_columns prepared) /\
     _prepare_table_for_excel_formulas prepared = Ok prepared).
Proof.
  assert (is_Ok (_prepare_table_for_excel_formulas table) = true
          <-> Forall (fun c => column_overflows c.2 = false) (df_columns table)) as Hiff.
  { split.
    - intros Hok. apply Forall_forall. intros [name v] Hin. simpl.
      destruct v as [| |cells| | |]; try done. simpl.
      destruct (existsb subtraction_overflows cells) eqn:Hcells; [|done].
      by rewrite (prepare_raises table name cells Hin Hcells) in Hok.
    - intros Hall. by rewrite prepare_ok. }
  split; [exact Hiff|].
  intros prepared Hnd Hprepared.
  assert (Forall (fun c => column_overflows c.2 = false) (df_columns table)) as Hall.
  { apply Hiff. by rewrite Hprepared. }
  rewrite (prepare_ok table Hall) in Hprepared. cbv zeta in Hprepared.
  injection Hprepared as <-.
  set (datetimes := filter (fun c => is_datetime c.2 = true) (df_columns table)).
  assert (forall name v, (name, v) ∈ df_columns table -> is_datetime v = false ->
                         name ∉ datetimes.*1) as Hother.
  { intros name v Hin Hv Hname.
    apply list_elem_of_fmap in Hname as ([name' v'] & Hn & Hin'). simpl in Hn. subst name'.
    apply list_elem_of_filter in Hin' as [Hv' Hin']. simpl in Hv'.
    rewrite (NoDup_fst_unique _ _ _ _ Hnd Hin Hin') in Hv. congruence. }
  assert (forall name cells, (name, Datetime cells) ∈ df_columns table ->
                             name ∈ datetimes.*1) as Hdatetime.
  { intros name cells Hin. apply list_elem_of_fmap. exists (name, Datetime cells).
    split; [done|]. by apply list_elem_of_filter. }
  assert (Forall (fun c => is_datetime c.2 = false)
            (df_columns
               (if bool_decide (length datetimes.*1 = 0%nat) then table
                else mkDataFrame (df_index table)
                       ((fun c => if bool_decide (c.1 ∈ datetimes.*1)
                                  then (c.1, number_column c.2) else c)
                        <$> df_columns table)))) as Hnone.
  { case_bool_decide as Hlen.
    - apply Forall_forall. intros [name v] Hin. simpl.
      destruct v as [| |cells| | |]; try done.
      apply length_zero_iff_nil in Hlen. specialize (Hdatetime _ _ Hin).
      rewrite Hlen in Hdatetime. by apply elem_of_nil in Hdatetime.
    - simpl. apply Forall_fmap, Forall_forall. intros [name v] Hin. simpl.
      case_bool_decide as Hname; simpl; [by destruct v|].
      destruct v as [| |cells| | |]; try done.
      exfalso. apply Hname. by eapply Hdatetime. }
  split; [|split; [|split; [|split; [|split; [|split]]]]].
  - by case_bool_decide.
  - case_bool_decide; [done|]. unfold columns. simpl.
    rewrite <- list_fmap_compose. apply list_fmap_ext. intros i [name v] _. simpl.
    by case_bool_decide.
  - intros i name cells Hi.
    assert ((name, Datetime cells) ∈ df_columns table) as Hin
      by (apply list_elem_of_lookup; eauto).
    pose proof (Hdatetime _ _ Hin) as Hname.
    case_bool_decide as Hlen.
    { apply length_zero_iff_nil in Hlen. rewrite Hlen in Hname.
      by apply elem_of_nil in Hname. }
    simpl. rewrite list_lookup_fmap, Hi. simpl. by rewrite bool_decide_eq_true_2.
  - intros i name v Hi Hv.
    case_bool_decide; [done|]. simpl. rewrite list_lookup_fmap, Hi. simpl.
    rewrite bool_decide_eq_false_2; [done|].
    eapply Hother; [|done]. apply list_elem_of_lookup; eauto.
  - intros Hnodate. rewrite bool_decide_eq_true_2; [done|].
    apply length_zero_iff_nil. destruct (datetimes.*1) as [|name names] eqn:Hnames; [done|].
    exfalso. assert (name ∈ datetimes.*1) as Hin by (rewrite Hnames; left).
    apply list_elem_of_fmap in Hin as ([name' v] & _ & Hin).
    apply list_elem_of_filter in Hin as [Hv Hin]. simpl in Hv.
    rewrite Forall_forall in Hnodate. specialize (Hnodate _ Hin). simpl in Hnodate.
    congruence.
  - exact Hnone.
  - by apply prepare_no_datetime.
Qed.

End PrepareTable.

(** The text column stays; 1900-01-01 is day 2, 1899-12-31 is null and
    2020-03-01 is day 43891. *)
Lemma prepare_table_in_range_witness :
  df_columns
    (mkDataFrame (RangeIndex 3)
       [("name", Object [PyStr "x"; PyStr "y"; PyNull]);
        ("when", Numeric [Some (inject_Z 2); None; Some (inject_Z 43891)])])
  !! 1%nat
  = Some ("when",
          Numeric (excel_number <$> [Some (datetime64_ns 1900 1 1);
                                     Some (datetime64_ns 1899 12 31);
                                     Some (datetime64_ns 2020 3 1)])).
Proof.
  refine (proj1 (proj2 (proj2 (proj2 (prepare_table_in_range Demo.table_dates) _ _ _)))
            1%nat "when" _ eq_refl).
  - unfold columns. simpl. apply NoDup_cons. split.
    + intros Hin. apply list_elem_of_singleton in Hin. discriminate.
    + apply NoDup_singleton.
  - vm_compute. reflexivity.
Defined.

Example date_serials :
  excel_number <$> [Some (datetime64_ns 1900 1 1); Some (datetime64_ns 1899 12 31);
                    Some (datetime64_ns 2020 3 1); Some (datetime64_ns 2020 3 1 + 1)]
  = [Some (inject_Z 2); None; Some (inject_Z 43891); Some (inject_Z 43891)].
Proof. by vm_compute. Qed.

(** ** The render boundary *)

Section Render.
Context `{External}.
Implicit Types (table : DataFrame) (params : Params) (code : CompiledFormula).









(** C5. The subtraction [datetime_table - excel_1900_zero_date] is
    checked int64 arithmetic: a table that holds, in a Datetime column, an
    instant more than [2^63 - 1] nanoseconds after 1899-12-30 (an instant
    after 2192-04-08 23:47:16.854775807, which a datetime64[ns] holds up
    to the year 2262) is not converted. Preparation raises OverflowError,
    and so does [render] in Excel mode, whatever the formula, a blank one
    included: the preparation is outside every [try]. *)
Theorem prepare_table_overflow table (name : string) cells (instant : Z) :
  (name, Datetime cells) ∈ df_columns table ->
  Some instant ∈ cells ->
  int64_max < instant - excel_1900_zero_date ->
  exists msg,
    _prepare_table_for_excel_formulas table = Raise (PyError "OverflowError" msg) /\
    forall params,
      syntax params = "excel" ->
      render (Some table) params = Raise (PyError "OverflowError" msg).
Proof.
  intros Hcolumn Hcell Hover. eexists. split.
  - apply (prepare_raises table name cells Hcolumn).
    apply existsb_exists. exists (Some instant). split; [by apply list_elem_of_In|].
    simpl. by apply Z.ltb_lt.
  - intros params Hsyntax. unfold render.
    rewrite bool_decide_eq_true_2 by done.
    rewrite (prepare_raises table name cells Hcolumn); [done|].
    apply existsb_exists. exists (Some instant). split; [by apply list_elem_of_In|].
    simpl. by apply Z.ltb_lt.
Qed.

End Render.



(** A date of the year 2200, with the formula [=A1]. *)
Lemma prepare_table_overflow_witness :
  exists msg,
    _prepare_table_for_excel_formulas Demo.table_2200
    = Raise (PyError "OverflowError" msg) /\
    @render Demo.engine (Some Demo.table_2200) (Demo.params_excel "=A1" true)
    = Raise (PyError "OverflowError" msg).
Proof.
  destruct (@prepare_table_overflow Demo.engine Demo.table_2200 "A"
              [Some (datetime64_ns 2200 1 1)] (datetime64_ns 2200 1 1))
    as (msg & Hprepare & Hrender).
  - by left.
  - by left.
  - by vm_compute.
  - exists msg. split; [exact Hprepare|]. by apply Hrender.
Defined.

(** One failure of each kind, rendered with the small engine. *)
Example taxonomy_examples :
  let message table params :=
    match @render Demo.engine (Some table) params with
    | Ok (RenderedMessage m) => message_kind m
    | _ => None
    end in
  message Demo.table_A12 (Demo.params_excel "=SUM B>" false) = Some InvalidFormula /\
  message Demo.table_A12 (Demo.params_excel "=A0*2" false) = Some InvalidReference /\
  message Demo.table_A12 (Demo.params_excel "=A0*2" true) = Some InvalidReference /\
  message Demo.table_AB (Demo.params_excel "=SUM((A1,B1))" false) = Some NonRectangularRange /\
  message Demo.table_A12 (Demo.params_excel "=A2*2" true) = Some FirstRowOnlyViolation /\
  message Demo.table_A12 (Demo.params_excel "=SUM(A1:B1)" true) = Some RangeOutOfBounds /\
  message Demo.table_A12 (Demo.params_excel "=A1+B1" false) = Some RangeOutOfBounds /\
  message Demo.table_A123 (Demo.params_excel "=DATEX(2019, 6, A1)" true)
  = Some FunctionNotImplemented /\
  message Demo.table_A12 (Demo.params_python "open('x')") = Some DisabledCapability /\
  @render Demo.engine (Some Demo.table_A12) (Demo.params_python "B*2")
  = Ok (RenderedText "name 'B' is not defined").
Proof. repeat split. Qed.

(** ** The column of SingleRow mode *)

Section SingleRowColumn.
Context `{External}.

Lemma length_Values_cells (v : Values) : length (Values_cells v) = Values_length v.
Proof. destruct v; simpl; by rewrite ?length_fmap. Qed.

Lemma forallb_Forall {A} (f : A -> bool) (l : list A) :
  forallb f l = true <-> Forall (fun x => f x = true) l.
Proof.
  induction l as [|x l IH]; simpl.
  - split; [constructor | done].
  - rewrite andb_true_iff, Forall_cons, IH. done.
Qed.

Lemma fmap_id_on {A} (f : A -> A) (l : list A) :
  Forall (fun x => f x = x) l -> f <$> l = l.
Proof. induction 1 as [|x l Hx _ IH]; csimpl; [done | by rewrite Hx, IH]. Qed.

(** The array pandas infers holds the cells it was built from. *)
Lemma Values_cells_infer (cells : list pyval) :
  Values_cells (infer_values cells) = cells.
Proof.
  unfold infer_values. destruct cells as [|c cells]; [done|].
  cbv beta iota zeta. generalize (c :: cells). clear c cells. intros l.
  destruct (forallb _ l) eqn:Hbool.
  { simpl. rewrite <- list_fmap_compose. apply fmap_id_on.
    apply forallb_Forall in Hbool. eapply Forall_impl; [exact Hbool|].
    intros [] Hx; simpl in *; congruence. }
  clear Hbool.
  match goal with |- context [if ?b then Numeric _ else _] => destruct b eqn:Hnum end.
  { apply andb_true_iff in Hnum as [Hnum _]. simpl.
    rewrite <- list_fmap_compose. apply fmap_id_on.
    apply forallb_Forall in Hnum. eapply Forall_impl; [exact Hnum|].
    intros [] Hx; simpl in *; congruence. }
  clear Hnum.
  match goal with |- context [if ?b then Datetime _ else _] => destruct b eqn:Hts end;
    [|done].
  apply andb_true_iff in Hts as [Hts _]. simpl.
  rewrite <- list_fmap_compose. apply fmap_id_on.
  apply forallb_Forall in Hts. eapply Forall_impl; [exact Hts|].
  intros [] Hx; simpl in *; congruence.
Qed.

Lemma Values_length_infer (cells : list pyval) :
  Values_length (infer_values cells) = length cells.
Proof. by rewrite <- length_Values_cells, Values_cells_infer. Qed.

Lemma forallb_replicate {A} (f : A -> bool) (n : nat) (x : A) :
  f x = true -> forallb f (replicate n x) = true.
Proof. intros Hx. induction n as [|n IH]; simpl; [done | by rewrite Hx, IH]. Qed.

Lemma existsb_replicate {A} (f : A -> bool) (n : nat) (x : A) :
  f x = false -> existsb f (replicate n x) = false.
Proof. intros Hx. induction n as [|n IH]; simpl; [done | by rewrite Hx, IH]. Qed.

(** A value above nulls is canonical unless it is a bool or an object
    that is not a [str]. *)
Lemma canonical_value_then_nulls (value : pyval) (n : nat) :
  canonical (pd_Series (value :: replicate n PyNull)) = true
  <-> match value with PyBool _ | PyObj _ => False | _ => True end.
Proof.
  unfold canonical, pd_Series, infer_values. simpl s_values.
  destruct value; simpl;
    rewrite ?(forallb_replicate _ n PyNull), ?(existsb_replicate _ n PyNull) by done;
    simpl; rewrite ?(forallb_replicate _ n PyNull) by done; try done.
  destruct n as [|n]; simpl; (split; [discriminate | done]).
Qed.

(** C6, amended. In SingleRow mode, on a table with [n >= 1] rows whose
    evaluation gives [v], the output column is [pd.Series] of [v] followed
    by [n - 1] nulls, built without sanitize or autocast: its length is
    [n], its row 0 holds [v] and its other rows are null. It has a
    canonical storage type when [v] is null, a number, a str or a
    timestamp, and only then. *)
Theorem single_row_column_direct (table : DataFrame) (formula : string)
    (code : CompiledFormula) (value : pyval) :
  excel_compile formula = Ok code ->
  eval_excel_one_row code table = Ok value ->
  (1 <= nrows table)%nat ->
  let column := pd_Series (value :: replicate (nrows table - 1) PyNull) in
  excel_formula table formula false = Ok column /\
  Values_length (s_values column) = nrows table /\
  s_index column = RangeIndex (nrows table) /\
  cell_at (s_values column) 0 = value /\
  (forall i, (1 <= i < nrows table)%nat -> cell_at (s_values column) i = PyNull) /\
  (canonical column = true
   <-> match value with PyBool _ | PyObj _ => False | _ => True end).
Proof.
  intros Hcode Hvalue Hrows column.
  assert (length (value :: replicate (nrows table - 1) PyNull) = nrows table) as Hlen.
  { simpl. rewrite length_replicate. lia. }
  split; [|split; [|split; [|split; [|split]]]].
  - unfold excel_formula. rewrite Hcode, Hvalue. simpl. unfold column.
    by replace (Z.to_nat (Z.of_nat (nrows table) - 1)) with (nrows table - 1)%nat by lia.
  - unfold column. cbn [pd_Series s_values]. by rewrite Values_length_infer.
  - unfold column. cbn [pd_Series s_index]. by rewrite Hlen.
  - unfold cell_at, column. cbn [pd_Series s_values]. by rewrite Values_cells_infer.
  - intros i Hi. unfold cell_at, column. cbn [pd_Series s_values].
    rewrite Values_cells_infer. destruct i as [|i]; [lia|]. simpl.
    rewrite lookup_replicate_2 by lia. done.
  - apply canonical_value_then_nulls.
Qed.

End SingleRowColumn.

(** [=A1+B1] on the first row of a table of two rows. *)
Lemma single_row_column_direct_witness :
  @excel_formula Demo.engine Demo.table_AB "=A1+B1" false
  = Ok (pd_Series [PyNum (inject_Z 3); PyNull]).
Proof.
  refine (proj1 (@single_row_column_direct Demo.engine Demo.table_AB "=A1+B1" _
                   (PyNum (inject_Z 3)) eq_refl eq_refl _)).
  unfold Demo.table_AB, nrows. simpl. lia.
Defined.

(** C6 fails twice. On a table with no row the column has one row; and a
    formula that gives a bool makes an object column that holds a bool,
    which sanitize would have turned into the str "True". *)
Lemma single_row_column_counterexample :
  (nrows Demo.table_empty = 0%nat /\
   exists column,
     @excel_formula Demo.engine Demo.table_empty "=1+1" false = Ok column /\
     Values_length (s_values column) = 1%nat) /\
  (exists column,
     @excel_formula Demo.engine Demo.table_A12 "=A1=1" false = Ok column /\
     s_values column = Object [PyBool true; PyNull] /\
     canonical column = false /\
     @sanitize_series Demo.engine column
     = Ok (mkSeries (RangeIndex 2) (Object [PyStr "True"; PyNull]))).
Proof.
  split.
  - split; [reflexivity|]. eexists. split; reflexivity.
  - eexists. repeat split; reflexivity.
Qed.

(** ** Categories and codes *)

Section Codes.
Context `{EqDecision A}.
Implicit Types (x : A) (l : list A).

Lemma index_of_range x l : -1 <= index_of x l < Z.of_nat (length l).
Proof.
  induction l as [|y l IH]; simpl; [lia|].
  destruct (decide (x = y)); [lia|].
  destruct (Z.ltb_spec (index_of x l) 0); lia.
Qed.

Lemma index_of_absent x l : x ∉ l -> index_of x l = -1.
Proof.
  induction l as [|y l IH]; simpl; [done|]. intros Hx.
  apply not_elem_of_cons in Hx as [Hne Hx].
  rewrite decide_False by done. rewrite IH by done. done.
Qed.

Lemma index_of_present x l : x ∈ l -> 0 <= index_of x l.
Proof.
  induction l as [|y l IH]; simpl; intros Hx; [by apply elem_of_nil in Hx|].
  destruct (decide (x = y)); [lia|].
  apply elem_of_cons in Hx as [?|Hx]; [done|].
  specialize (IH Hx). destruct (Z.ltb_spec (index_of x l) 0); lia.
Qed.

(** In a list without repetition, the position of an element is the
    position it is found at. *)
Lemma index_of_lookup x l (i : nat) :
  NoDup l -> l !! i = Some x -> index_of x l = Z.of_nat i.
Proof.
  revert i. induction l as [|y l IH]; intros i Hnd Hi; [done|].
  apply NoDup_cons in Hnd as [Hy Hnd]. simpl.
  destruct i as [|i]; simpl in Hi.
  - injection Hi as ->. by rewrite decide_True.
  - rewrite decide_False.
    + rewrite (IH i Hnd Hi). destruct (Z.ltb_spec (Z.of_nat i) 0); lia.
    + intros ->. apply Hy. apply list_elem_of_lookup. eauto.
Qed.

(** Codes made of positions in a list without repetition fit it, when
    every element of the list is among the values. *)
Lemma positions_tight (values categories : list A) :
  NoDup categories ->
  (forall x, x ∈ categories -> x ∈ values) ->
  tight (length categories) ((fun x => index_of x categories) <$> values).
Proof.
  intros Hnd Hsub. split.
  - apply Forall_fmap, Forall_forall. intros x _. apply index_of_range.
  - intros j Hj.
    destruct (lookup_lt_is_Some_2 categories (Z.to_nat j)) as [x Hx]; [lia|].
    apply list_elem_of_fmap. exists x. split.
    + rewrite (index_of_lookup _ _ _ Hnd Hx). lia.
    + apply Hsub. apply list_elem_of_lookup. eauto.
Qed.

Lemma factorize_tight (R : relation A) `{!RelDecision R} (values : list A) :
  tight (length (factorize R values).1) (factorize R values).2 /\
  length (factorize R values).2 = length values /\
  ((factorize R values).1 = [] -> values = []).
Proof.
  unfold factorize. simpl. split; [|split; [by rewrite length_fmap|]].
  - apply positions_tight.
    + rewrite merge_sort_Permutation. apply NoDup_remove_dups.
    + intros x. rewrite merge_sort_Permutation. apply elem_of_remove_dups.
  - intros Hnil. destruct values as [|x values]; [done|]. exfalso.
    assert (x ∈ merge_sort R (remove_dups (x :: values))) as Hx.
    { rewrite merge_sort_Permutation. apply elem_of_remove_dups. left. }
    rewrite Hnil in Hx. by apply elem_of_nil in Hx.
Qed.

End Codes.

Section Prune.
Implicit Types (codes : list Z) (categories : Index).

Lemma NoDup_used_codes (k : nat) codes : NoDup (used_codes k codes).
Proof. apply NoDup_filter, NoDup_seqZ. Qed.

Lemma elem_of_used_codes (k : nat) codes (j : Z) :
  j ∈ used_codes k codes <-> j ∈ codes /\ 0 <= j < Z.of_nat k.
Proof. unfold used_codes. rewrite list_elem_of_filter, elem_of_seqZ. intuition lia. Qed.

Lemma used_codes_tight (k : nat) codes :
  tight k codes -> used_codes k codes = seqZ 0 (Z.of_nat k).
Proof.
  intros [_ Hall]. unfold used_codes.
  assert (Forall (fun j => j ∈ codes) (seqZ 0 (Z.of_nat k))) as Hf.
  { apply Forall_forall. intros j Hj. apply elem_of_seqZ in Hj. apply Hall. lia. }
  induction Hf as [|j l Hj _ IH]; [done|].
  rewrite filter_cons, decide_True by done. by rewrite IH.
Qed.

Lemma take_at_all {B} (l : list B) : take_at l (seqZ 0 (Z.of_nat (length l))) = l.
Proof.
  induction l as [|x l IH] using rev_ind; [done|].
  rewrite length_app. simpl.
  replace (Z.of_nat (length l + 1)) with (Z.of_nat (length l) + 1) by lia.
  rewrite seqZ_app by lia. unfold take_at in *. rewrite omap_app.
  rewrite <- IH at 3. f_equal.
  - apply list_omap_ext. apply Forall2_same_length_lookup_2; [done|].
    intros i j j' Hj Hj'. rewrite Hj in Hj'. injection Hj' as <-.
    apply lookup_seqZ in Hj as [-> Hi]. rewrite lookup_app_l by lia. done.
  - simpl.
    replace (Z.to_nat (Z.of_nat 0 + (0 + Z.of_nat (length l)))) with (length l) by lia.
    rewrite lookup_app_r by lia. by rewrite Nat.sub_diag.
Qed.

Lemma length_take_at {B} (l : list B) (positions : list Z) :
  Forall (fun j => 0 <= j < Z.of_nat (length l)) positions ->
  length (take_at l positions) = length positions.
Proof.
  unfold take_at. induction 1 as [|j positions Hj _ IH]; csimpl; [done|].
  destruct (lookup_lt_is_Some_2 l (Z.to_nat j)) as [x ->]; [lia|].
  csimpl. by rewrite IH.
Qed.

Lemma Index_length_take categories (positions : list Z) :
  Forall (fun j => 0 <= j < Z.of_nat (Index_length categories)) positions ->
  Index_length (Index_take categories positions) = length positions.
Proof. destruct categories; simpl; apply length_take_at. Qed.

Lemma Index_take_all categories :
  Index_take categories (seqZ 0 (Z.of_nat (Index_length categories))) = categories.
Proof. destruct categories; simpl; by rewrite take_at_all. Qed.

(** After [remove_unused_categories] the codes fit the categories. *)
Lemma remove_unused_categories_tight categories codes :
  tight (Index_length (remove_unused_categories categories codes).1)
        (remove_unused_categories categories codes).2 /\
  length (remove_unused_categories categories codes).2 = length codes.
Proof.
  unfold remove_unused_categories. simpl. split; [|by rewrite length_fmap].
  rewrite Index_length_take.
  - apply positions_tight; [apply NoDup_used_codes|].
    intros j Hj. by apply elem_of_used_codes in Hj as [Hj _].
  - apply Forall_forall. intros j Hj. by apply elem_of_used_codes in Hj as [_ Hj].
Qed.

(** Codes that fit have nothing to remove. *)
Lemma remove_unused_categories_of_tight categories codes :
  tight (Index_length categories) codes ->
  remove_unused_categories categories codes = (categories, codes).
Proof.
  intros Htight. unfold remove_unused_categories.
  rewrite (used_codes_tight _ _ Htight), Index_take_all. f_equal.
  destruct Htight as [Hrange _]. apply fmap_id_on.
  eapply Forall_impl; [exact Hrange|]. intros c Hc. simpl in Hc.
  destruct (decide (c = -1)) as [->|Hne].
  - apply index_of_absent. rewrite elem_of_seqZ. lia.
  - rewrite (index_of_lookup c _ (Z.to_nat c)); [lia|apply NoDup_seqZ|].
    apply lookup_seqZ. lia.
Qed.

End Prune.

(** ** Sanitize on a categorical column *)

Section SanitizeCategorical.
Context `{External}.
Implicit Types (categories : Index) (codes : list Z).

Lemma index_of_elem `{EqDecision A} (x : A) (l : list A) :
  x ∈ l -> l !! Z.to_nat (index_of x l) = Some x.
Proof.
  induction l as [|y l IH]; intros Hx; [by apply elem_of_nil in Hx|]. simpl.
  destruct (decide (x = y)) as [->|Hne]; [done|].
  apply elem_of_cons in Hx as [?|Hx]; [done|].
  pose proof (index_of_present x l Hx) as Hpos.
  destruct (Z.ltb_spec (index_of x l) 0); [lia|].
  replace (Z.to_nat (index_of x l + 1)) with (S (Z.to_nat (index_of x l))) by lia.
  by apply IH.
Qed.

Lemma take_at_fmap {A B} (f : A -> B) (l : list A) (positions : list Z) :
  take_at (f <$> l) positions = f <$> take_at l positions.
Proof.
  unfold take_at. induction positions as [|j positions IH]; csimpl; [done|].
  rewrite list_lookup_fmap, IH. by destruct (l !! Z.to_nat j).
Qed.

Lemma take_at_lookup {A} (l : list A) (positions : list Z) (i : nat) (j : Z) :
  Forall (fun j => 0 <= j < Z.of_nat (length l)) positions ->
  positions !! i = Some j ->
  take_at l positions !! i = l !! Z.to_nat j.
Proof.
  unfold take_at. intros Hall. revert i.
  induction Hall as [|j' positions Hj' _ IH]; intros i Hi; [done|]. csimpl.
  destruct (lookup_lt_is_Some_2 l (Z.to_nat j')) as [x Hx]; [lia|]. rewrite Hx.
  destruct i as [|i]; simpl in *.
  - injection Hi as ->. by rewrite Hx.
  - by apply IH.
Qed.

Lemma Index_values_take categories (positions : list Z) :
  Index_values (Index_take categories positions)
  = take_at (Index_values categories) positions.
Proof. destruct categories; simpl; by rewrite ?take_at_fmap. Qed.

Lemma length_Index_values categories :
  length (Index_values categories) = Index_length categories.
Proof. destruct categories; simpl; by rewrite ?length_fmap. Qed.

(** Removing the unused categories changes no cell. *)
Lemma decode_remove_unused categories codes :
  Forall (fun c => -1 <= c < Z.of_nat (Index_length categories)) codes ->
  let pruned := remove_unused_categories categories codes in
  decode pruned.1 <$> pruned.2 = decode categories <$> codes.
Proof.
  intros Hrange. unfold remove_unused_categories. cbn [fst snd].
  rewrite <- list_fmap_compose. apply list_fmap_ext. intros i c Hi. simpl.
  set (used := used_codes (Index_length categories) codes).
  unfold decode. rewrite Index_values_take.
  rewrite Forall_forall in Hrange.
  assert (c ∈ codes) as Hc by (apply list_elem_of_lookup; eauto).
  specialize (Hrange c Hc). simpl in Hrange.
  destruct (Z.ltb_spec c 0) as [Hneg|Hpos].
  - rewrite index_of_absent; [done|]. intros Hin.
    apply elem_of_used_codes in Hin. lia.
  - assert (c ∈ used) as Hused by (apply elem_of_used_codes; split; [done | lia]).
    pose proof (index_of_present c used Hused) as Hi0.
    destruct (Z.ltb_spec (index_of c used) 0); [lia|].
    rewrite (take_at_lookup _ _ _ c); [done| |by apply index_of_elem].
    apply Forall_forall. intros j Hj. apply elem_of_used_codes in Hj.
    rewrite length_Index_values. lia.
Qed.

(** Labels that are numbers convert without a failure. *)
Lemma to_numeric_numeric_labels (labels : list Q) codes :
  let cells := decode (NumericIndex labels) <$> codes in
  exists numbers,
    mapM numeric_of_object cells = Ok numbers /\
    Values_cells (Numeric numbers) = cells.
Proof.
  simpl. induction codes as [|c codes (numbers & Hnumbers & Hcells)].
  - by exists [].
  - rewrite fmap_cons. cbn [mapM]. rewrite Hnumbers.
    assert (exists n, numeric_of_object (decode (NumericIndex labels) c) = Ok n /\
                      match n with Some q => PyNum q | None => PyNull end
                      = decode (NumericIndex labels) c) as (n & Hn & Hc).
    { unfold decode. cbn [Index_values]. destruct (c <? 0); [by exists None|].
      rewrite list_lookup_fmap.
      destruct (labels !! Z.to_nat c) as [q|]; [by exists (Some q) | by exists None]. }
    rewrite Hn. cbn [bind]. exists (n :: numbers). split; [done|].
    cbn [Values_cells] in *. by rewrite fmap_cons, Hcells, Hc.
Qed.

Lemma numeric_labels_not_bool (labels : list Q) codes :
  let cells := decode (NumericIndex labels) <$> codes in
  forallb is_bool cells && negb (bool_decide (cells = [])) = false.
Proof.
  simpl. destruct codes as [|c codes]; [done|]. csimpl.
  assert (is_bool (decode (NumericIndex labels) c) = false) as ->; [|done].
  unfold decode. cbn [Index_values]. destruct (c <? 0); [done|].
  rewrite list_lookup_fmap. by destruct (labels !! _).
Qed.

(** C3, amended. Sanitize converts a categorical column to Numeric when
    its labels are stored with a numeric dtype, that is when the labels
    are numbers: the cells keep their values. A categorical whose
    remaining labels are strings comes back categorical, pruned, whether
    or not the labels parse as numbers. *)
Theorem sanitize_uncategorizes_numeric_dtype (index : list Z) categories codes :
  Forall (fun c => -1 <= c < Z.of_nat (Index_length categories)) codes ->
  let series := mkSeries index (Categorical categories codes) in
  let pruned := remove_unused_categories categories codes in
  (is_numeric_index categories = true ->
   exists numbers,
     sanitize_series series = Ok (mkSeries (RangeIndex (length codes)) (Numeric numbers)) /\
     Values_cells (Numeric numbers) = Values_cells (s_values series)) /\
  (forall labels,
     pruned.1 = ObjectIndex labels -> labels <> [] -> forallb is_str labels = true ->
     sanitize_series series
     = Ok (mkSeries (RangeIndex (length codes)) (Categorical pruned.1 pruned.2))).
Proof.
  intros Hrange series pruned. subst series pruned.
  pose proof (decode_remove_unused categories codes Hrange) as Hdecode.
  unfold sanitize_series, reset_index. cbn [s_values s_index Values_length].
  unfold remove_unused_categories in *. cbn [fst snd] in *.
  set (used := used_codes (Index_length categories) codes) in *.
  set (codes' := (fun c => index_of c used) <$> codes) in *.
  split.
  - intros Hnumeric. destruct categories as [labels| |]; try discriminate.
    cbn [Index_take is_numeric_index] in *.
    destruct (to_numeric_numeric_labels (take_at labels used) codes')
      as (numbers & Hnumbers & Hcells).
    exists numbers. split.
    + unfold pd_to_numeric. cbn [s_values s_index Values_cells]. rewrite Hnumbers.
      cbn [bind]. by rewrite numeric_labels_not_bool.
    + rewrite Hcells. cbn [s_values Values_cells]. exact Hdecode.
  - intros labels Hlabels Hnonempty Hstr. rewrite Hlabels.
    cbn [is_numeric_index dtype_is_not_object Index_values orb].
    unfold infer_dtype_is_string. destruct labels; [done|]. by rewrite Hstr.
Qed.

End SanitizeCategorical.

(** [pd.Series([1, 2, 1], dtype="category")] becomes the numbers 1, 2, 1. *)
Lemma sanitize_uncategorizes_numeric_dtype_witness :
  exists numbers,
    @sanitize_series Demo.engine
      (mkSeries [5; 6; 7] (Categorical (NumericIndex [1%Q; 2%Q]) [0; 1; 0]))
    = Ok (mkSeries (RangeIndex 3) (Numeric numbers)) /\
    Values_cells (Numeric numbers) = [PyNum 1; PyNum 2; PyNum 1].
Proof.
  refine (proj1 (@sanitize_uncategorizes_numeric_dtype Demo.engine [5; 6; 7]
                   (NumericIndex [1%Q; 2%Q]) [0; 1; 0] _) eq_refl).
  repeat constructor; simpl; lia.
Defined.

(** C3 fails for labels that are strings: the labels "1" and "2" parse as
    numbers, and sanitize returns the column categorical. It is autocast
    that converts it afterwards. *)
Lemma sanitize_keeps_numeric_strings_counterexample :
  let series := mkSeries (RangeIndex 2)
                  (Categorical (ObjectIndex [PyStr "1"; PyStr "2"]) [0; 1]) in
  Forall (fun label => is_Ok (@numeric_of_object Demo.engine label) = true)
         [PyStr "1"; PyStr "2"] /\
  @sanitize_series Demo.engine series = Ok series /\
  @autocast_series_dtype Demo.engine series
  = Ok (mkSeries (RangeIndex 2) (Numeric [Some (inject_Z 1); Some (inject_Z 2)])).
Proof.
  split; [|split].
  - repeat constructor.
  - reflexivity.
  - reflexivity.
Qed.

(** ** Sanitize and autocast *)

Section SanitizeAutocast.
Context `{External}.
Implicit Types (s x y : Series) (cells : list pyval) (codes : list Z).

Lemma mapM_length {A B} (f : A -> result B) (l : list A) (ys : list B) :
  mapM f l = Ok ys -> length ys = length l.
Proof.
  revert ys. induction l as [|a l IH]; simpl; intros ys.
  - by intros [= <-].
  - destruct (f a) as [b|]; simpl; [|discriminate].
    destruct (mapM f l) as [bs|]; simpl; [|discriminate].
    intros [= <-]. simpl. by rewrite (IH bs).
Qed.

Lemma set_where_fmap {A} (f : A -> bool) (g : A -> pyval) (x : pyval) (l : list A) :
  set_where (f <$> l) x (g <$> l) = (fun a => if f a then x else g a) <$> l.
Proof. unfold set_where. induction l as [|a l IH]; csimpl; [done | by rewrite IH]. Qed.

(** What sanitize makes of a cell of an object column. *)
Lemma sanitize_object_cells cells :
  set_where (is_null <$> cells) PyNull (astype_str cells)
  = (fun v => if is_null v then PyNull else PyStr (py_str v)) <$> cells.
Proof. apply set_where_fmap. Qed.

Lemma sanitize_object_cells_idemp cells :
  let cells' := set_where (is_null <$> cells) PyNull (astype_str cells) in
  set_where (is_null <$> cells') PyNull (astype_str cells') = cells'.
Proof.
  simpl. rewrite !sanitize_object_cells, <- list_fmap_compose.
  apply list_fmap_ext. intros i v _. simpl. by destruct v.
Qed.

(** A categorical with [str] labels and fitting codes is left alone. *)
Lemma sanitize_clean_categorical (labels : list pyval) codes :
  forallb is_str labels = true ->
  tight (length labels) codes ->
  (labels = [] -> codes = []) ->
  sanitize_series (pd_Series_of_values (Categorical (ObjectIndex labels) codes))
  = Ok (pd_Series_of_values (Categorical (ObjectIndex labels) codes)).
Proof.
  intros Hstr Htight Hnil. unfold sanitize_series, pd_Series_of_values, reset_index.
  cbn [s_values s_index Values_length].
  rewrite remove_unused_categories_of_tight by done.
  cbn [is_numeric_index dtype_is_not_object Index_values orb].
  destruct labels as [|label labels].
  - rewrite (Hnil eq_refl). reflexivity.
  - unfold infer_dtype_is_string. by rewrite Hstr.
Qed.

Lemma pd_to_numeric_index s numbers :
  pd_to_numeric s = Ok numbers ->
  s_index numbers = s_index s /\
  Values_length (s_values numbers) = Values_length (s_values s) /\
  match s_values numbers with Numeric _ | Boolean _ => True | _ => False end.
Proof.
  unfold pd_to_numeric. destruct s as [idx v]. cbn [s_values s_index].
  destruct v as [cells|cells|cells|cells|categories codes|cells].
  - by intros [= <-].
  - by intros [= <-].
  - intros [= <-]. simpl. by rewrite length_fmap.
  - destruct (mapM _ _) as [cells'|] eqn:Hcells; cbn [bind]; [|discriminate].
    destruct (_ && _); intros [= <-]; cbn [s_index s_values Values_length Values_cells].
    + by rewrite length_fmap.
    + by rewrite (mapM_length _ _ _ Hcells).
  - destruct (mapM _ _) as [cells'|] eqn:Hcells; cbn [bind]; [|discriminate].
    destruct (_ && _); intros [= <-]; cbn [s_index s_values Values_length].
    + cbn [Values_cells]. by rewrite !length_fmap.
    + rewrite (mapM_length _ _ _ Hcells). cbn [Values_cells]. by rewrite length_fmap.
  - destruct (mapM _ _) as [cells'|] eqn:Hcells; cbn [bind]; [|discriminate].
    destruct (_ && _); intros [= <-]; cbn [s_index s_values Values_length Values_cells].
    + by rewrite length_fmap.
    + by rewrite (mapM_length _ _ _ Hcells).
Qed.

(** A numeric (or bool) column on a RangeIndex goes through sanitize and
    autocast unchanged. *)
Lemma numeric_fixed s :
  s_index s = RangeIndex (Values_length (s_values s)) ->
  match s_values s with Numeric _ | Boolean _ => True | _ => False end ->
  sanitize_series s = Ok s /\ autocast_series_dtype s = Ok s.
Proof.
  destruct s as [idx v]. cbn [s_index s_values]. intros -> Hv.
  unfold sanitize_series, autocast_series_dtype, reset_index. cbn [s_values s_index].
  by destruct v.
Qed.

(** What sanitize returns, sanitize leaves alone; and its index is a
    RangeIndex. *)
Lemma sanitize_output x s :
  sanitize_series x = Ok s ->
  sanitize_series s = Ok s /\ s_index s = RangeIndex (Values_length (s_values s)).
Proof.
  destruct x as [idx v]. unfold sanitize_series at 1, reset_index.
  cbn [s_values s_index].
  assert (forall cells,
            let s := mkSeries (RangeIndex (length cells))
                       (Object (set_where (is_null <$> cells) PyNull (astype_str cells))) in
            sanitize_series s = Ok s /\
            s_index s = RangeIndex (Values_length (s_values s))) as Hstrs.
  { intros cells.
    assert (length (set_where (is_null <$> cells) PyNull (astype_str cells)) = length cells)
      as Hlen by (by rewrite sanitize_object_cells, length_fmap).
    split.
    + unfold sanitize_series, reset_index. cbn [s_values s_index Values_length].
      by rewrite Hlen, sanitize_object_cells_idemp.
    + cbn [s_values s_index Values_length]. by rewrite Hlen. }
  destruct v as [cells|cells|cells|cells|categories codes|cells];
    [| | | |
     |intros [= <-]; cbn [Values_length]; apply Hstrs].
  - intros [= <-]. by split.
  - intros [= <-]. by split.
  - intros [= <-]. by split.
  - intros [= <-]. cbn [Values_length]. apply Hstrs.
  - pose proof (remove_unused_categories_tight categories codes) as [Htight Hlen].
    destruct (remove_unused_categories categories codes) as [categories' codes'].
    cbn [fst snd] in Htight, Hlen. cbn [Values_length].
    destruct (is_numeric_index categories') eqn:Hnumeric.
    { intros Hnum. apply pd_to_numeric_index in Hnum as (Hidx & Hlen' & Hkind).
      cbn [s_index s_values Values_length] in Hidx, Hlen'.
      assert (s_index s = RangeIndex (Values_length (s_values s))) as Hrange.
      { rewrite Hidx, Hlen'. by rewrite Hlen. }
      split; [|done]. by apply numeric_fixed. }
    destruct (dtype_is_not_object categories'
              || negb (infer_dtype_is_string (Index_values categories'))) eqn:Hremap.
    + cbv zeta.
      generalize (factorize String.le (py_str <$> Index_values categories')).
      intros [labels positions]. cbn [fst snd].
      destruct (loc_getitem codes' positions) as [selected|] eqn:Hselected;
        cbn [bind]; [|discriminate].
      pose proof (factorize_tight Z.le selected) as (Htight' & Hlen' & Hnil').
      destruct (factorize Z.le selected) as [categories'' codes''].
      cbn [fst snd] in *. unfold rename_categories.
      case_bool_decide as Hsame; cbn [bind]; [|discriminate].
      intros [= <-]. split; [|done].
      apply sanitize_clean_categorical.
      * apply forallb_Forall, Forall_fmap, Forall_forall. by intros.
      * by rewrite length_fmap, Hsame.
      * intros Hempty. apply fmap_nil_inv in Hempty.
        rewrite Hempty in Hsame. simpl in Hsame. symmetry in Hsame.
        apply length_zero_iff_nil in Hsame.
        rewrite (Hnil' Hsame) in Hlen'. by apply length_zero_iff_nil.
    + intros [= <-]. cbn [s_index s_values Values_length]. rewrite Hlen. split; [|done].
      apply orb_false_iff in Hremap as [Hobject Hstring].
      apply negb_false_iff in Hstring.
      destruct categories' as [labels|labels|labels]; try discriminate.
      cbn [Index_values Index_length] in *.
      rewrite <- Hlen.
      apply (sanitize_clean_categorical labels codes').
      * destruct labels; [discriminate | exact Hstring].
      * done.
      * intros ->. discriminate.
Qed.

(** Autocast of a sanitized column gives a column that sanitize and
    autocast leave alone. *)
Lemma autocast_of_sanitized s y :
  sanitize_series s = Ok s ->
  autocast_series_dtype s = Ok y ->
  sanitize_then_autocast y = Ok y.
Proof.
  intros Hsan Hauto.
  destruct (sanitize_output _ _ Hsan) as [_ Hrange].
  assert (y = s -> sanitize_then_autocast y = Ok y) as Hself.
  { intros ->. unfold sanitize_then_autocast. by rewrite Hsan. }
  assert (forall numbers, pd_to_numeric s = Ok numbers ->
                          sanitize_then_autocast numbers = Ok numbers) as Hnumbers.
  { intros numbers Hnum.
    apply pd_to_numeric_index in Hnum as (Hidx & Hlen & Hkind).
    destruct (numeric_fixed numbers) as [Hs Ha].
    - by rewrite Hidx, Hlen.
    - done.
    - unfold sanitize_then_autocast. by rewrite Hs. }
  destruct s as [idx v]. unfold autocast_series_dtype in Hauto. cbn [s_values s_index] in *.
  destruct v as [cells|cells|cells|cells|categories codes|cells]; [| | | | |discriminate].
  - injection Hauto as <-. by apply Hself.
  - injection Hauto as <-. by apply Hself.
  - injection Hauto as <-. by apply Hself.
  - destruct (all_null_or_empty cells); [injection Hauto as <-; by apply Hself|].
    destruct (pd_to_numeric _) as [numbers|e] eqn:Hnum.
    + injection Hauto as <-. by apply Hnumbers.
    + destruct (is_ValueError_or_TypeError e); [|discriminate].
      destruct (existsb _ _); injection Hauto as <-; [|by apply Hself].
      apply Hself. unfold sanitize_series, reset_index in Hsan.
      cbn [s_values s_index] in Hsan. injection Hsan as _ Hcells.
      by rewrite Hcells.
  - destruct (all_null_or_empty _); [injection Hauto as <-; by apply Hself|].
    destruct (pd_to_numeric _) as [numbers|e] eqn:Hnum.
    + injection Hauto as <-. by apply Hnumbers.
    + destruct (is_ValueError_or_TypeError e); [|discriminate].
      injection Hauto as <-. by apply Hself.
Qed.

(** C7. Sanitize-then-autocast is idempotent: applied to its own result it
    returns that result (and where it raises, applying it twice raises the
    same). *)
Theorem sanitize_then_autocast_idempotent (x : Series) :
  (let* y := sanitize_then_autocast x in sanitize_then_autocast y)
  = sanitize_then_autocast x.
Proof.
  destruct (sanitize_then_autocast x) as [y|e] eqn:Hx; simpl; [|done].
  unfold sanitize_then_autocast in Hx.
  apply bind_Ok in Hx as (s & Hs & Ha).
  apply sanitize_output in Hs as [Hs _].
  by eapply autocast_of_sanitized.
Qed.

End SanitizeAutocast.

(** The columns of [tests/test_sanitize.py]: a sliced categorical of
    objects and strings comes out with the labels "b" and "c" only; the
    categorical of 1 and "2" gets the labels "1" and "2"; an unused label
    is dropped; int categories become numbers; and in a mixed object
    column the int 1 becomes the str "1" while the null stays null. *)
Example sanitize_test_suite :
  @sanitize_series Demo.engine
    (mkSeries [1; 2; 3]
       (Categorical (ObjectIndex [PyObj "a"; PyObj "b"; PyStr "c"; PyStr "b"]) [1; 2; 3]))
  = Ok (mkSeries (RangeIndex 3)
          (Categorical (ObjectIndex [PyStr "b"; PyStr "c"]) [0; 1; 0])) /\
  @sanitize_series Demo.engine
    (mkSeries (RangeIndex 2) (Categorical (ObjectIndex [PyNum 1; PyStr "2"]) [0; 1]))
  = Ok (mkSeries (RangeIndex 2)
          (Categorical (ObjectIndex [PyStr "1"; PyStr "2"]) [0; 1])) /\
  @sanitize_series Demo.engine
    (mkSeries (RangeIndex 2)
       (Categorical (ObjectIndex [PyStr "a"; PyStr "b"; PyStr "c"]) [0; 1]))
  = Ok (mkSeries (RangeIndex 2)
          (Categorical (ObjectIndex [PyStr "a"; PyStr "b"]) [0; 1])) /\
  @sanitize_series Demo.engine
    (mkSeries (RangeIndex 2) (Categorical (NumericIndex [1%Q; 2%Q]) [0; 1]))
  = Ok (mkSeries (RangeIndex 2) (Numeric [Some 1%Q; Some 2%Q])) /\
  @sanitize_series Demo.engine
    (mkSeries (RangeIndex 4) (Object [PyNum 1; PyStr "str"; PyNull; PyStr ""]))
  = Ok (mkSeries (RangeIndex 4) (Object [PyStr "1"; PyStr "str"; PyNull; PyStr ""])).
Proof. repeat split; vm_compute; reflexivity. Qed.

(** Where the remap raises: the labels 1 and "2" on the rows 1, 1, "2".
    The codes are read at the positions 0 and 1, which hold one distinct
    code, and two new labels do not fit one category. *)
Example sanitize_remap_raises :
  is_Ok (@sanitize_series Demo.engine
           (mkSeries (RangeIndex 3)
              (Categorical (ObjectIndex [PyNum 1; PyStr "2"]) [0; 0; 1])))
  = false.
Proof. vm_compute. reflexivity. Qed.

(* ================================================================= *)
(** * Further properties of the module *)

(** ** Parameter migration: what it touches and when it fails *)

Section MigrateParamsMore.
Implicit Types p : gmap string param_value.

(** X1. A migration that succeeds changes nothing but the value of
    [syntax]: every other key keeps its value, no key is added or removed,
    and a [syntax] that was an int (or a bool) has become "excel" or
    "python". *)
Theorem migrate_params_changes_only_syntax p p' :
  migrate_params p = Ok p' ->
  (forall k, k <> "syntax" -> p' !! k = p !! k) /\
  dom p' = dom p /\
  (forall v, p !! "syntax" = Some v -> isinstance_int v = true ->
             p' !! "syntax" = Some (ParamStr "excel") \/
             p' !! "syntax" = Some (ParamStr "python")).
Proof.
  unfold migrate_params, Py.dict_getitem.
  destruct (p !! "syntax") as [v|] eqn:Hp; simpl; [|discriminate].
  destruct (isinstance_int v) eqn:Hv.
  - unfold _migrate_params_v0_to_v1, Py.dict_getitem. rewrite Hp. simpl.
    destruct (as_index v) as [i|]; simpl; [|discriminate].
    destruct (Py.list_getitem _ i) as [name|] eqn:Hname; simpl; [|discriminate].
    intros [= <-]. split; [|split].
    + intros k Hk. by rewrite lookup_insert_ne.
    + rewrite dom_insert_L. apply elem_of_dom_2 in Hp.
      by apply subseteq_union_1_L, singleton_subseteq_l.
    + intros _ _ _. rewrite lookup_insert_eq.
      unfold Py.list_getitem in Hname.
      destruct (_ || _); [discriminate|]. simpl in Hname.
      destruct ((0 <=? _) && _); [|discriminate].
      destruct (Z.to_nat _) as [|[|n]]; simpl in Hname;
        [left | right | discriminate]; congruence.
  - intros [= <-]. split; [done|]. split; [done|]. intros v' [= <-]. congruence.
Qed.

(** The configuration of [test_v0_python]. *)
Lemma migrate_params_changes_only_syntax_witness :
  (<["syntax" := ParamStr "python"]>
     (<["syntax" := ParamInt 1]> (<["out_column" := ParamStr "R"]> ∅))
   : gmap string param_value) !! "out_column"
  = (<["syntax" := ParamInt 1]> (<["out_column" := ParamStr "R"]> ∅)
     : gmap string param_value) !! "out_column".
Proof.
  refine (proj1 (migrate_params_changes_only_syntax
                   (<["syntax" := ParamInt 1]> (<["out_column" := ParamStr "R"]> ∅))
                   _ _) "out_column" _); [|done].
  unfold migrate_params, _migrate_params_v0_to_v1, Py.dict_getitem.
  rewrite lookup_insert_eq. reflexivity.
Defined.

(** X2. Migration fails in two cases only: without a [syntax] key it
    raises KeyError, and with an int outside -2..1 it raises IndexError.
    The ints -2 and 0 and the bool False give "excel"; -1, 1 and True
    give "python" (a negative index counts from the end of the list); any
    other value is left as it is. *)
Theorem migrate_params_outcomes p :
  (p !! "syntax" = None ->
   exists msg, migrate_params p = Raise (PyError "KeyError" msg)) /\
  (forall z, p !! "syntax" = Some (ParamInt z) ->
     (z = 0 \/ z = -2 -> migrate_params p = Ok (<["syntax" := ParamStr "excel"]> p)) /\
     (z = 1 \/ z = -1 -> migrate_params p = Ok (<["syntax" := ParamStr "python"]> p)) /\
     (z < -2 \/ 2 <= z ->
      exists msg, migrate_params p = Raise (PyError "IndexError" msg))) /\
  (forall b, p !! "syntax" = Some (ParamBool b) ->
     migrate_params p
     = Ok (<["syntax" := ParamStr (if b then "python" else "excel")]> p)) /\
  (forall v, p !! "syntax" = Some v -> isinstance_int v = false ->
     migrate_params p = Ok p).
Proof.
  unfold migrate_params, _migrate_params_v0_to_v1, Py.dict_getitem.
  split; [|split; [|split]].
  - intros ->. eexists. reflexivity.
  - intros z ->. simpl. unfold Py.list_getitem. cbn [length].
    change (Z.of_nat 2) with 2. split; [|split].
    + by intros [->| ->].
    + by intros [->| ->].
    + intros Hz. destruct (_ || _); [by eexists|].
      destruct (Z.ltb_spec z 0).
      * destruct (Z.leb_spec 0 (z + 2)); [lia|]. by eexists.
      * destruct (Z.leb_spec 0 z); [|lia]. destruct (Z.ltb_spec z 2); [lia|].
        by eexists.
  - intros b ->. by destruct b.
  - intros v -> Hv. simpl. by rewrite Hv.
Qed.

(** A legacy value that is no index of the two names. *)
Lemma migrate_params_outcomes_witness :
  exists msg,
    migrate_params (<["syntax" := ParamInt 2]> ∅) = Raise (PyError "IndexError" msg).
Proof.
  refine (proj2 (proj2 (proj1 (proj2 (migrate_params_outcomes
                                        (<["syntax" := ParamInt 2]> ∅))) 2 _)) _).
  - apply lookup_insert_eq.
  - right. lia.
Defined.

End MigrateParamsMore.

(** ** The output column *)

Section OutputColumnMore.

Lemma get_output_column_not_in (columns : list string) (requested name : string) :
  _get_output_column columns requested = Some name -> name ∉ columns.
Proof.
  unfold _get_output_column.
  set (base := if bool_decide (requested = "") then "result" else requested).
  case_bool_decide as Hin.
  - destruct (first_free_suffix _ _ _ _) as [n|] eqn:Hn; [|done].
    intros [= <-].
    by destruct (first_free_suffix_Some _ _ _ _ _ Hn) as (_ & Hfree & _).
  - intros [= <-]. by rewrite append_empty_r.
Qed.

(** X3. The name chosen for the output column is never the name of an
    existing column, and it is the requested name (or "result" when none
    is requested) followed by a suffix, so it is never empty. *)
Theorem get_output_column_fresh (columns : list string) (requested : string) :
  exists name suffix,
    _get_output_column columns requested = Some name /\
    (name ∉ columns) /\
    name = (if decide (requested = "") then "result" else requested) +:+ suffix /\
    name <> "".
Proof.
  unfold _get_output_column.
  set (base := if decide (requested = "") then "result" else requested).
  replace (if bool_decide (requested = "") then "result" else requested) with base
    by (subst base; by destruct (decide (requested = ""));
        [rewrite bool_decide_eq_true_2 | rewrite bool_decide_eq_false_2]).
  assert (forall suffix, base +:+ suffix <> "") as Hnonempty.
  { intros suffix. subst base. destruct (decide (requested = "")); [done|].
    by destruct requested. }
  case_bool_decide as Hin.
  - destruct (first_free_suffix_total columns base) as [n Hn]. rewrite Hn.
    destruct (first_free_suffix_Some _ _ _ _ _ Hn) as (_ & Hfree & _).
    exists (base +:+ Py.str_of_nat n), (Py.str_of_nat n). by repeat split.
  - exists (base +:+ ""), "". rewrite append_empty_r. repeat split; try done.
    rewrite <- (append_empty_r base). apply Hnonempty.
Qed.

End OutputColumnMore.

(** ** Ranges and arguments of the Excel evaluation *)

Section ExcelMore.
Implicit Types (table : DataFrame) (rng : Range) (code : CompiledFormula).

(** X8. In AllRows mode a range that names another row than "1" fails
    with the first-row error, whatever its columns; a range on row 1
    fails with the out-of-bounds error exactly when its columns are not
    [0 <= col_start < col_end <= number of columns]; otherwise it gives
    the column indices from [col_start] up to [col_end], which are then
    all columns of the table, and there is at least one. *)
Theorem all_rows_range_bounds table rng :
  let col_start := n1 rng - 1 in
  let col_end := n2 rng in
  let ncolumns := Z.of_nat (ncols table) in
  (r1 rng <> "1" \/ r2 rng <> "1" -> all_rows_range table rng = Raise first_row_only) /\
  (r1 rng = "1" -> r2 rng = "1" ->
   (all_rows_range table rng = Raise (column_out_of_range rng)
    <-> col_start < 0 \/ col_end > ncolumns \/ col_start >= col_end) /\
   (0 <= col_start < col_end /\ col_end <= ncolumns ->
    all_rows_range table rng = Ok (seqZ col_start (col_end - col_start)))) /\
  (forall cols, all_rows_range table rng = Ok cols ->
     cols <> [] /\ forall j, j ∈ cols -> 0 <= j < ncolumns).
Proof.
  intros col_start col_end ncolumns. subst col_start col_end ncolumns.
  unfold all_rows_range.
  assert (length (columns table) = ncols table) as -> by apply length_fmap.
  split; [|split].
  - intros Hrow.
    destruct (decide (r1 rng = "1")) as [H1|H1], (decide (r2 rng = "1")) as [H2|H2];
      rewrite ?(bool_decide_eq_true_2 _ H1), ?(bool_decide_eq_true_2 _ H2),
        ?(bool_decide_eq_false_2 _ H1), ?(bool_decide_eq_false_2 _ H2); try done.
    by destruct Hrow.
  - intros H1 H2. rewrite !bool_decide_eq_true_2 by done. simpl.
    destruct ((n1 rng - 1 <? 0) || (n2 rng >? Z.of_nat (ncols table))
              || (n1 rng - 1 >=? n2 rng)) eqn:Hguard.
    + assert (~ (0 <= n1 rng - 1 < n2 rng /\ n2 rng <= Z.of_nat (ncols table))) as Hbad.
      { rewrite <- all_rows_guard. congruence. }
      split; [split; [lia | done]|]. intros Hok. by destruct Hbad.
    + apply all_rows_guard in Hguard. split; [split; [discriminate | lia]|done].
  - intros cols.
    destruct (negb _ || negb _); [discriminate|].
    destruct ((n1 rng - 1 <? 0) || (n2 rng >? Z.of_nat (ncols table))
              || (n1 rng - 1 >=? n2 rng)) eqn:Hguard; [discriminate|].
    apply all_rows_guard in Hguard. intros [= <-]. split.
    + rewrite seqZ_cons by lia. done.
    + intros j Hj. apply elem_of_seqZ in Hj. lia.
Qed.

(** The reference [A2] in AllRows mode. *)
Lemma all_rows_range_bounds_witness :
  all_rows_range Demo.table_A12 (Demo.cell 1 "2" "A2") = Raise first_row_only.
Proof.
  apply (proj1 (all_rows_range_bounds Demo.table_A12 (Demo.cell 1 "2" "A2"))).
  left. discriminate.
Defined.








(** X10. Inputs are resolved in the order of their declaration, and the
    first one that fails decides the error, in either mode: the formula is
    not evaluated, whatever the later inputs and the rows of the table
    are. *)
Theorem first_failing_input_decides code table before token obj after (e : exn) :
  inputs code = before ++ (token, obj) :: after ->
  (Forall (fun i => is_Ok (one_row_argument table i.1 i.2) = true) before ->
   one_row_argument table token obj = Raise e ->
   eval_excel_one_row code table = Raise e) /\
  (Forall (fun i => is_Ok (all_rows_columns table i.1 i.2) = true) before ->
   all_rows_columns table token obj = Raise e ->
   eval_excel_all_rows code table = Raise e).
Proof.
  intros Hinputs. split; intros Hbefore Hfail.
  - unfold eval_excel_one_row. rewrite Hinputs, mapM_app.
    destruct (mapM_all_Ok (fun '(token, obj) => one_row_argument table token obj) before)
      as [args ->].
    { eapply Forall_impl; [exact Hbefore|]. by intros [t o]. }
    simpl. by rewrite Hfail.
  - unfold eval_excel_all_rows. rewrite Hinputs, mapM_app.
    destruct (mapM_all_Ok (fun '(token, obj) => all_rows_columns table token obj) before)
      as [cols ->].
    { eapply Forall_impl; [exact Hbefore|]. by intros [t o]. }
    simpl. by rewrite Hfail.
Qed.

(** [A1] resolves and [A0] does not. *)
Lemma first_failing_input_decides_witness :
  eval_excel_all_rows
    (mkCompiled [("A1", Some [Demo.cell 1 "1" "A1"]); ("A0", None)]
       (fun _ => Ok (RetValue PyNull)))
    Demo.table_A12
  = Raise (UserVisibleError
             (i18n_trans "excel.badCellReference" "Bad cell reference {token}"
                [("token", "A0")])).
Proof.
  refine (proj2 (first_failing_input_decides
                   (mkCompiled [("A1", Some [Demo.cell 1 "1" "A1"]); ("A0", None)]
                      (fun _ => Ok (RetValue PyNull)))
                   Demo.table_A12 [("A1", Some [Demo.cell 1 "1" "A1"])] "A0" None [] _
                   eq_refl) _ eq_refl).
  repeat constructor.
Defined.

Lemma mapM_lookup {A B} (f : A -> result B) (l : list A) (ys : list B)
    (i : nat) (x : A) :
  mapM f l = Ok ys -> l !! i = Some x -> exists y, ys !! i = Some y /\ f x = Ok y.
Proof.
  revert ys i. induction l as [|a l IH]; intros ys i; simpl; [done|].
  destruct (f a) as [b|] eqn:Hb; simpl; [|discriminate].
  destruct (mapM f l) as [bs|]; simpl; [|discriminate].
  intros [= <-]. destruct i as [|i]; simpl.
  - intros [= <-]. eauto.
  - by apply IH.
Qed.

Lemma all_rows_length code table (s : Series) :
  eval_excel_all_rows code table = Ok s ->
  exists values, s = pd_Series values /\ length values = nrows table.
Proof.
  unfold eval_excel_all_rows. intros Heval.
  apply bind_Ok in Heval as (col_idx & _ & Heval).
  apply bind_Ok in Heval as (values & Hvalues & Heval). injection Heval as <-.
  exists values. split; [done|].
  by rewrite (mapM_length _ _ _ Hvalues), length_DataFrame_values.
Qed.

(** X11. When the AllRows evaluation returns, its column is [pd.Series]
    of one value per row of the table, in row order: the value at row [i]
    is what the formula returns on the arguments read from row [i] at the
    resolved columns, one argument per range. *)
Theorem all_rows_one_value_per_row code table (s : Series) :
  eval_excel_all_rows code table = Ok s ->
  exists col_idx values,
    mapM (fun '(token, obj) => all_rows_columns table token obj) (inputs code)
    = Ok col_idx /\
    s = pd_Series values /\
    length values = nrows table /\
    Values_cells (s_values s) = values /\
    forall (i : nat) row,
      DataFrame_values table !! i = Some row ->
      exists args value,
        mapM (fun col => let* cells := mapM (Py.list_getitem row) col in
                         Ok (flatten_single_element_lists cells))
             (concat col_idx) = Ok args /\
        length args = length (concat col_idx) /\
        eval_excel code args = Ok value /\
        values !! i = Some value.
Proof.
  unfold eval_excel_all_rows. intros Heval.
  apply bind_Ok in Heval as (col_idx & Hcols & Heval).
  apply bind_Ok in Heval as (values & Hvalues & Heval). injection Heval as <-.
  exists col_idx, values. split; [exact Hcols|].
  split; [done|]. split.
  { by rewrite (mapM_length _ _ _ Hvalues), length_DataFrame_values. }
  split; [apply Values_cells_infer|].
  intros i row Hrow.
  destruct (mapM_lookup _ _ _ _ _ Hvalues Hrow) as (value & Hvalue & Hcall).
  apply bind_Ok in Hcall as (args & Hargs & Hcall).
  exists args, value. split; [done|]. split; [|done].
  by rewrite (mapM_length _ _ _ Hargs).
Qed.

End ExcelMore.

(** [=A1*2] on the rows 1 and 2. *)
Lemma all_rows_one_value_per_row_witness :
  exists col_idx values,
    mapM (fun '(token, obj) => all_rows_columns Demo.table_A12 token obj)
         [("A1", Some [Demo.cell 1 "1" "A1"])] = Ok col_idx /\
    mkSeries (RangeIndex 2) (Numeric [Some (inject_Z 2); Some (inject_Z 4)])
    = pd_Series values /\
    length values = nrows Demo.table_A12.
Proof.
  destruct (all_rows_one_value_per_row
              (mkCompiled [("A1", Some [Demo.cell 1 "1" "A1"])]
                 (fun args => match args with
                              | [a] => Ok (RetArray [PyNum (Qred (Demo.number a * 2))])
                              | _ => Raise (PyError "TypeError" "wrong number of arguments")
                              end))
              Demo.table_A12
              (mkSeries (RangeIndex 2) (Numeric [Some (inject_Z 2); Some (inject_Z 4)]))
              eq_refl)
    as (col_idx & values & Hcols & Hs & Hlen & _).
  exists col_idx, values. by repeat split.
Defined.

(** ** Sanitize and autocast: what they keep and when they convert *)

Section SanitizeMore.
Context `{External}.
Implicit Types (s x y : Series) (cells : list pyval) (codes : list Z)
  (categories : Index).

Lemma canonical_clean_categorical (index : list Z) (labels : list pyval) codes :
  forallb is_str labels = true ->
  tight (length labels) codes ->
  canonical (mkSeries index (Categorical (ObjectIndex labels) codes)) = true.
Proof.
  intros Hstr Htight. unfold canonical. cbn [s_values]. rewrite Hstr. simpl.
  apply bool_decide_eq_true_2. by apply used_codes_tight.
Qed.

(** X12. A column that sanitize returns has a RangeIndex and, unless it
    was given a bool column (which it returns as it is), a canonical
    storage type: numbers, datetimes, an object array of str and nulls,
    or a categorical whose labels are str and all in use. *)
Theorem sanitize_output_canonical x s :
  sanitize_series x = Ok s ->
  s_index s = RangeIndex (Values_length (s_values s)) /\
  (match s_values x with Boolean _ => False | _ => True end -> canonical s = true).
Proof.
  intros Hs. split; [by apply (sanitize_output x)|].
  destruct x as [idx v]. unfold sanitize_series, reset_index in Hs.
  cbn [s_values s_index] in *.
  destruct v as [cells|cells|cells|cells|categories codes|cells]; intros Hkind;
    try done.
  - by injection Hs as <-.
  - by injection Hs as <-.
  - injection Hs as <-. unfold canonical. cbn [s_values].
    rewrite sanitize_object_cells. apply forallb_Forall, Forall_fmap, Forall_forall.
    intros v _. simpl. by destruct v.
  - pose proof (remove_unused_categories_tight categories codes) as [Htight Hlen].
    destruct (remove_unused_categories categories codes) as [categories' codes'].
    cbn [fst snd] in Htight, Hlen.
    destruct (is_numeric_index categories') eqn:Hnumeric.
    { destruct categories' as [labels| |]; try discriminate.
      unfold pd_to_numeric in Hs. cbn [s_values s_index Values_cells] in Hs.
      destruct (mapM _ _); cbn [bind] in Hs; [|discriminate].
      rewrite numeric_labels_not_bool in Hs. by injection Hs as <-. }
    destruct (dtype_is_not_object categories'
              || negb (infer_dtype_is_string (Index_values categories'))) eqn:Hremap.
    + cbv zeta in Hs.
      destruct (factorize String.le (py_str <$> Index_values categories'))
        as [labels positions]. cbn [fst snd] in Hs.
      destruct (loc_getitem codes' positions) as [selected|]; cbn [bind] in Hs;
        [|discriminate].
      pose proof (factorize_tight Z.le selected) as (Htight' & _ & _).
      destruct (factorize Z.le selected) as [categories'' codes''].
      cbn [fst snd] in *. unfold rename_categories in Hs.
      case_bool_decide as Hsame; cbn [bind] in Hs; [|discriminate].
      injection Hs as <-. apply canonical_clean_categorical.
      * apply forallb_Forall, Forall_fmap, Forall_forall. by intros.
      * by rewrite length_fmap, Hsame.
    + injection Hs as <-.
      apply orb_false_iff in Hremap as [Hobject Hstring].
      apply negb_false_iff in Hstring.
      destruct categories' as [labels|labels|labels]; try discriminate.
      cbn [Index_values Index_length] in *.
      apply canonical_clean_categorical; [|done].
      destruct labels; [discriminate | exact Hstring].
  - injection Hs as <-. unfold canonical. cbn [s_values].
    rewrite sanitize_object_cells. apply forallb_Forall, Forall_fmap, Forall_forall.
    intros v _. simpl. by destruct v.
Qed.

(** X13. Sanitize changes no value it does not have to. A numeric, bool
    or datetime column keeps its array. In an object column, and in a
    column of another dtype, which is cast to str as well, a null stays
    null and any other cell becomes its [str], so a str stays itself. A
    categorical column with sound codes that needs no remap keeps the
    value of every cell, as numbers when its labels are numbers. *)
Theorem sanitize_keeps_cells x s :
  sanitize_series x = Ok s ->
  match s_values x with
  | Numeric _ | Boolean _ | Datetime _ => s_values s = s_values x
  | Object cells | Other cells =>
      s_values s
      = Object ((fun v => if is_null v then PyNull else PyStr (py_str v)) <$> cells)
  | Categorical categories codes =>
      Forall (fun c => -1 <= c < Z.of_nat (Index_length categories)) codes ->
      needs_remap categories codes = false ->
      Values_cells (s_values s) = Values_cells (s_values x)
  end.
Proof.
  destruct x as [idx v]. unfold sanitize_series, reset_index.
  cbn [s_values s_index].
  destruct v as [cells|cells|cells|cells|categories codes|cells].
  6:{ intros [= <-]. cbn [s_values]. by rewrite sanitize_object_cells. }
  - by intros [= <-].
  - by intros [= <-].
  - by intros [= <-].
  - intros [= <-]. cbn [s_values]. by rewrite sanitize_object_cells.
  - intros Hs Hrange Hremap.
    pose proof (decode_remove_unused categories codes Hrange) as Hdecode.
    unfold needs_remap in Hremap.
    destruct (remove_unused_categories categories codes) as [categories' codes'].
    cbn [fst snd Values_cells] in *.
    destruct (is_numeric_index categories') eqn:Hnumeric.
    + destruct categories' as [labels| |]; try discriminate.
      destruct (to_numeric_numeric_labels labels codes') as (numbers & Hnumbers & Hcells).
      unfold pd_to_numeric in Hs. cbn [s_values s_index Values_cells] in Hs.
      rewrite Hnumbers in Hs. cbn [bind] in Hs.
      rewrite numeric_labels_not_bool in Hs. injection Hs as <-. cbn [s_values].
      by rewrite Hcells.
    + simpl in Hremap. rewrite Hremap in Hs. by injection Hs as <-.
Qed.

(** X14. The remap of a categorical whose labels are not all str returns,
    when it returns, a column with one row for each label that was in
    use, not one for each row it was given; its labels are the distinct
    [str] of the old labels, in order. *)
Theorem sanitize_remap_rows (index : list Z) categories codes s :
  needs_remap categories codes = true ->
  sanitize_series (mkSeries index (Categorical categories codes)) = Ok s ->
  let pruned := (remove_unused_categories categories codes).1 in
  Values_length (s_values s) = Index_length pruned /\
  exists codes',
    s_values s
    = Categorical
        (ObjectIndex (PyStr <$> merge_sort String.le
                                  (remove_dups (py_str <$> Index_values pruned))))
        codes'.
Proof.
  unfold needs_remap, sanitize_series, reset_index. cbn [s_values s_index].
  destruct (remove_unused_categories categories codes) as [categories' codes'].
  cbn [fst snd]. intros Hremap Hs.
  apply andb_true_iff in Hremap as [Hnumeric Hremap].
  apply negb_true_iff in Hnumeric. rewrite Hnumeric, Hremap in Hs.
  cbv zeta in Hs. unfold factorize at 1 2 in Hs. cbn [fst snd] in Hs.
  destruct (loc_getitem codes' _) as [selected|] eqn:Hselected; cbn [bind] in Hs;
    [|discriminate].
  apply mapM_length in Hselected. rewrite !length_fmap in Hselected.
  rewrite length_Index_values in Hselected.
  pose proof (factorize_tight Z.le selected) as (_ & Hlen & _).
  destruct (factorize Z.le selected) as [categories'' codes''].
  cbn [fst snd] in *. unfold rename_categories in Hs.
  case_bool_decide; cbn [bind] in Hs; [|discriminate].
  injection Hs as <-. cbn [pd_Series_of_values s_values Values_length].
  split; [congruence | eauto].
Qed.

End SanitizeMore.

(** A mixed column on another index: the int 1, a str and a null. *)
Lemma sanitize_output_canonical_witness :
  canonical (mkSeries (RangeIndex 3) (Object [PyStr "1"; PyStr "str"; PyNull])) = true.
Proof.
  refine (proj2 (@sanitize_output_canonical Demo.engine
                   (mkSeries [4; 5; 6] (Object [PyNum 1; PyStr "str"; PyNull])) _ eq_refl) I).
Defined.

(** The categorical of [test_remove_unused_categories], on the rows a, b. *)
Lemma sanitize_keeps_cells_witness :
  Values_cells (Categorical (ObjectIndex [PyStr "a"; PyStr "b"]) [0; 1])
  = Values_cells (Categorical (ObjectIndex [PyStr "a"; PyStr "b"; PyStr "c"]) [0; 1]).
Proof.
  refine (@sanitize_keeps_cells Demo.engine
            (mkSeries (RangeIndex 2)
               (Categorical (ObjectIndex [PyStr "a"; PyStr "b"; PyStr "c"]) [0; 1]))
            (mkSeries (RangeIndex 2)
               (Categorical (ObjectIndex [PyStr "a"; PyStr "b"]) [0; 1]))
            eq_refl _ eq_refl).
  repeat constructor; simpl; lia.
Defined.

(** The labels 1 and "2" on the rows 1, "2", 1: three rows in, two out. *)
Lemma sanitize_remap_rows_witness :
  Values_length
    (Categorical (ObjectIndex [PyStr "1"; PyStr "2"]) [0; 1])
  = Index_length
      (remove_unused_categories (ObjectIndex [PyNum 1; PyStr "2"]) [0; 1; 0]).1.
Proof.
  refine (proj1 (@sanitize_remap_rows Demo.engine (RangeIndex 3)
                   (ObjectIndex [PyNum 1; PyStr "2"]) [0; 1; 0]
                   (mkSeries (RangeIndex 2)
                      (Categorical (ObjectIndex [PyStr "1"; PyStr "2"]) [0; 1]))
                   eq_refl _)).
  vm_compute. reflexivity.
Defined.

Section AutocastMore.
Context `{External}.
Implicit Types (s y : Series) (cells : list pyval).

Lemma numeric_of_object_raises (v : pyval) (e : exn) :
  numeric_of_object v = Raise e -> is_ValueError_or_TypeError e = true.
Proof.
  destruct v as [|q|b|str|t|repr]; simpl; try discriminate.
  - case_bool_decide; [discriminate|].
    destruct (parse_num str); [discriminate|]. by intros [= <-].
  - by intros [= <-].
  - by intros [= <-].
Qed.

(** [pd.to_numeric] on cells: the numbers when every cell converts, and a
    ValueError or TypeError otherwise. *)
Lemma to_numeric_cells cells :
  if convertible cells
  then mapM numeric_of_object cells = Ok (numbers_of cells)
  else exists e, mapM numeric_of_object cells = Raise e /\
                 is_ValueError_or_TypeError e = true.
Proof.
  unfold convertible, numbers_of. induction cells as [|v cells IH]; csimpl; [done|].
  destruct (numeric_of_object v) as [n|e] eqn:Hv; simpl.
  - destruct (forallb _ cells).
    + by rewrite IH.
    + destruct IH as (e & -> & He). eauto.
  - exists e. split; [done|]. by eapply numeric_of_object_raises.
Qed.

Lemma numbers_of_null cells (i : nat) :
  cells !! i = Some PyNull ->
  Values_cells (Numeric (numbers_of cells)) !! i = Some PyNull.
Proof.
  intros Hi. unfold numbers_of. cbn [Values_cells].
  by rewrite !list_lookup_fmap, Hi.
Qed.

Lemma sane_object_no_cast cells :
  forallb (fun v => is_null v || is_str v) cells = true ->
  existsb (fun x => negb (is_str x)) (filter (fun x => negb (is_null x)) cells) = false.
Proof.
  intros Hsane. apply forallb_Forall in Hsane.
  induction Hsane as [|v cells Hv _ IH]; [done|].
  rewrite filter_cons. destruct v; simpl in *; try done.
Qed.

Lemma all_null_or_empty_nil cells :
  all_null_or_empty cells = false -> bool_decide (cells = []) = false.
Proof. destruct cells; [done|]. intros _. by apply bool_decide_eq_false_2. Qed.

(** What autocast does, by dtype and cells. *)
Lemma autocast_cases s :
  let cells := Values_cells (s_values s) in
  let converted :=
    mkSeries (s_index s)
      (if forallb is_bool cells then Boolean (bool_of <$> cells)
       else Numeric (numbers_of cells)) in
  match s_values s with
  | Object _ =>
      autocast_series_dtype s
      = Ok (if all_null_or_empty cells then s
            else if convertible cells then converted
                 else if sane s then s
                      else mkSeries (s_index s)
                             (Object (set_where (is_null <$> cells) PyNull
                                        (astype_str cells))))
  | Categorical _ _ =>
      autocast_series_dtype s
      = Ok (if all_null_or_empty cells then s
            else if convertible cells then converted else s)
  | Numeric _ | Boolean _ | Datetime _ => autocast_series_dtype s = Ok s
  | Other _ => autocast_series_dtype s = Raise (PyError "AssertionError" "")
  end.
Proof.
  destruct s as [idx v]. unfold autocast_series_dtype, pd_to_numeric, sane.
  cbn [s_values s_index].
  destruct v as [numbers|bools|instants|cells|categories codes|cells]; try done.
  - cbn [Values_cells]. destruct (all_null_or_empty cells) eqn:Hempty; [done|].
    apply all_null_or_empty_nil in Hempty.
    pose proof (to_numeric_cells cells) as Hnum.
    destruct (convertible cells).
    + rewrite Hnum, Hempty. cbn [bind negb]. rewrite andb_true_r.
      by destruct (forallb is_bool cells).
    + destruct Hnum as (e & -> & He). simpl. rewrite He.
      destruct (forallb _ cells) eqn:Hsane.
      * by rewrite sane_object_no_cast.
      * destruct (existsb _ _) eqn:Hcast; [done|]. exfalso.
        assert (forallb (fun v => is_null v || is_str v) cells = true); [|congruence].
        clear -Hcast. induction cells as [|v cells IH]; [done|].
        rewrite filter_cons in Hcast. destruct v; simpl in *; try done; by apply IH.
  - destruct (all_null_or_empty _) eqn:Hempty; [done|].
    apply all_null_or_empty_nil in Hempty.
    pose proof (to_numeric_cells (Values_cells (Categorical categories codes))) as Hnum.
    destruct (convertible _).
    + rewrite Hnum, Hempty. cbn [bind negb]. rewrite andb_true_r.
      by destruct (forallb is_bool _).
    + destruct Hnum as (e & -> & He). simpl. by rewrite He.
Qed.

Lemma length_numbers_of s :
  Values_length (Numeric (numbers_of (Values_cells (s_values s))))
  = Values_length (s_values s).
Proof.
  unfold numbers_of. cbn [Values_length]. by rewrite length_fmap, length_Values_cells.
Qed.

Lemma length_bools_of s :
  Values_length (Boolean (bool_of <$> Values_cells (s_values s)))
  = Values_length (s_values s).
Proof. cbn [Values_length]. by rewrite length_fmap, length_Values_cells. Qed.

Lemma all_bool_no_null cells (i : nat) :
  forallb is_bool cells = true -> cells !! i = Some PyNull -> False.
Proof.
  intros Hall Hi. apply forallb_Forall in Hall.
  by apply (Forall_lookup_1 _ _ _ _ Hall) in Hi.
Qed.

(** The shape and the nulls of what autocast returns. *)
Lemma autocast_shape s y :
  autocast_series_dtype s = Ok y ->
  s_index y = s_index s /\
  Values_length (s_values y) = Values_length (s_values s) /\
  forall i : nat,
    Values_cells (s_values s) !! i = Some PyNull ->
    Values_cells (s_values y) !! i = Some PyNull.
Proof.
  pose proof (autocast_cases s) as Hcases. simpl in Hcases.
  pose proof (length_numbers_of s) as Hlen.
  pose proof (length_bools_of s) as Hlen'.
  intros Hy. destruct s as [idx v]. cbn [s_values s_index] in *.
  destruct v as [numbers|bools|instants|cells|categories codes|cells];
    rewrite Hcases in Hy; try discriminate; injection Hy as <-; try done.
  - destruct (all_null_or_empty _); [done|].
    destruct (convertible _).
    { destruct (forallb is_bool _) eqn:Hbool.
      - split; [done|]. split; [exact Hlen'|]. intros i Hi.
        by destruct (all_bool_no_null _ i Hbool Hi).
      - split; [done|]. split; [exact Hlen|]. apply numbers_of_null. }
    destruct (sane _); [done|]. cbn [s_values s_index Values_length Values_cells].
    rewrite sanitize_object_cells. split; [done|]. split; [by rewrite length_fmap|].
    intros i Hi. by rewrite list_lookup_fmap, Hi.
  - destruct (all_null_or_empty _); [done|].
    destruct (convertible _); [|done].
    destruct (forallb is_bool _) eqn:Hbool.
    + split; [done|]. split; [exact Hlen'|]. intros i Hi.
      by destruct (all_bool_no_null _ i Hbool Hi).
    + split; [done|]. split; [exact Hlen|]. apply numbers_of_null.
Qed.

(** A sane column that is not all null or empty has a cell that is no
    bool. *)
Lemma sane_no_bool s :
  match s_values s with Object _ | Categorical _ _ => True | _ => False end ->
  sane s = true ->
  all_null_or_empty (Values_cells (s_values s)) = false ->
  forallb is_bool (Values_cells (s_values s)) = false.
Proof.
  unfold sane. destruct (s_values s) as [| | |cells|categories codes|]; try done;
    intros _ Hsane Hempty; cbn [Values_cells] in *.
  - destruct cells as [|v cells]; [done|]. simpl in Hsane. by destruct v.
  - destruct codes as [|c codes]; [done|]. csimpl.
    assert (is_bool (decode categories c) = false) as ->; [|done].
    unfold decode. destruct (c <? 0); [done|].
    destruct (Index_values categories !! Z.to_nat c) as [v|] eqn:Hv; [|done].
    apply forallb_Forall in Hsane.
    apply (Forall_lookup_1 _ _ _ _ Hsane) in Hv. by destruct v.
Qed.

(** X15. Autocast raises in one case only, the assertion on a column of
    another dtype than object, category, number, bool and datetime64 (a
    timedelta column, say): the errors of the numeric conversion are the
    ones it catches. In every other case it returns, and the column it
    returns has the index and the number of rows of the one it was
    given, and its null cells are still null. *)
Theorem autocast_returns_or_asserts s :
  match s_values s with
  | Other _ => autocast_series_dtype s = Raise (PyError "AssertionError" "")
  | _ =>
      exists y,
        autocast_series_dtype s = Ok y /\
        s_index y = s_index s /\
        Values_length (s_values y) = Values_length (s_values s) /\
        forall i : nat,
          Values_cells (s_values s) !! i = Some PyNull ->
          Values_cells (s_values y) !! i = Some PyNull
  end.
Proof.
  pose proof (autocast_cases s) as Hcases. simpl in Hcases.
  pose proof (autocast_shape s) as Hshape.
  destruct (s_values s) as [numbers|bools|instants|cells|categories codes|cells];
    try exact Hcases; rewrite Hcases in Hshape; eauto.
Qed.

(** X16. Autocast converts an object or categorical column exactly when
    some cell is neither null nor the empty string and every cell
    converts: to a bool column when every cell is a bool, and to numbers
    otherwise (nulls and empty strings become null numbers), which is
    what a sane column gives. In every other case a sane object column
    and any categorical column come back as they are. Numeric, bool and
    datetime columns always do, and a column of another dtype fails the
    assertion. *)
Theorem autocast_converts_exactly s :
  let cells := Values_cells (s_values s) in
  match s_values s with
  | Object _ | Categorical _ _ =>
      (all_null_or_empty cells = false -> convertible cells = true ->
       autocast_series_dtype s
       = Ok (mkSeries (s_index s)
               (if forallb is_bool cells then Boolean (bool_of <$> cells)
                else Numeric (numbers_of cells)))) /\
      (all_null_or_empty cells = false -> convertible cells = true ->
       sane s = true ->
       autocast_series_dtype s = Ok (mkSeries (s_index s) (Numeric (numbers_of cells)))) /\
      (all_null_or_empty cells = true \/ convertible cells = false ->
       sane s = true ->
       autocast_series_dtype s = Ok s)
  | Numeric _ | Boolean _ | Datetime _ => autocast_series_dtype s = Ok s
  | Other _ => autocast_series_dtype s = Raise (PyError "AssertionError" "")
  end.
Proof.
  pose proof (autocast_cases s) as Hcases.
  pose proof (sane_no_bool s) as Hbool. simpl in *.
  destruct (s_values s) as [numbers|bools|instants|cells|categories codes|cells]; try done.
  - split; [|split].
    + intros Hsome Hall. by rewrite Hsome, Hall in Hcases.
    + intros Hsome Hall Hsane. rewrite Hsome, Hall in Hcases.
      by rewrite (Hbool I Hsane Hsome) in Hcases.
    + intros Hno Hsane. rewrite Hsane in Hcases.
      destruct (all_null_or_empty _); [done|]. destruct Hno as [|Hno]; [done|].
      by rewrite Hno in Hcases.
  - split; [|split].
    + intros Hsome Hall. by rewrite Hsome, Hall in Hcases.
    + intros Hsome Hall Hsane. rewrite Hsome, Hall in Hcases.
      by rewrite (Hbool I Hsane Hsome) in Hcases.
    + intros Hno _.
      destruct (all_null_or_empty _); [done|]. destruct Hno as [|Hno]; [done|].
      by rewrite Hno in Hcases.
Qed.

(** X17. On sane input autocast is idempotent: autocast of what it
    returns is what it returned. *)
Theorem autocast_idempotent_on_sane s :
  sane s = true ->
  (let* y := autocast_series_dtype s in autocast_series_dtype y)
  = autocast_series_dtype s.
Proof.
  intros Hsane. pose proof (autocast_cases s) as Hcases. simpl in Hcases.
  destruct (s_values s) as [numbers|bools|instants|cells|categories codes|cells] eqn:Hv;
    try (by rewrite Hcases; simpl; rewrite Hcases).
  - rewrite Hsane in Hcases. rewrite Hcases.
    destruct (all_null_or_empty _); simpl; [by rewrite Hcases|].
    destruct (convertible _); simpl; [|by rewrite Hcases].
    by destruct (forallb is_bool _).
  - rewrite Hcases.
    destruct (all_null_or_empty _); simpl; [by rewrite Hcases|].
    destruct (convertible _); simpl; [|by rewrite Hcases].
    by destruct (forallb is_bool _).
  - by rewrite Hcases.
Qed.

End AutocastMore.

(** The strings "1" and "" convert: the empty string becomes a null. *)
Lemma autocast_converts_exactly_witness :
  @autocast_series_dtype Demo.engine
    (mkSeries (RangeIndex 2) (Object [PyStr "1"; PyStr ""]))
  = Ok (mkSeries (RangeIndex 2) (Numeric [Some (inject_Z 1); None])).
Proof.
  exact (proj1 (proj2 (@autocast_converts_exactly Demo.engine
                         (mkSeries (RangeIndex 2) (Object [PyStr "1"; PyStr ""]))))
           eq_refl eq_refl eq_refl).
Defined.

(** A column of text that does not parse. *)
Lemma autocast_idempotent_on_sane_witness :
  (let* y := @autocast_series_dtype Demo.engine
               (mkSeries (RangeIndex 2) (Object [PyStr "1"; PyStr "x"])) in
   @autocast_series_dtype Demo.engine y)
  = @autocast_series_dtype Demo.engine
      (mkSeries (RangeIndex 2) (Object [PyStr "1"; PyStr "x"])).
Proof.
  exact (@autocast_idempotent_on_sane Demo.engine
           (mkSeries (RangeIndex 2) (Object [PyStr "1"; PyStr "x"])) eq_refl).
Defined.

(** ** The per-row evaluations *)

Section PerRow.
Context `{External}.
Implicit Types (table : DataFrame) (code : PyCode) (rows : list (list pyval)).

(** The first exception of a loop is that of the first element that
    raises. *)
Lemma mapM_Raise {A B} (f : A -> result B) (l : list A) (e : exn) :
  mapM f l = Raise e ->
  exists (i : nat) x,
    l !! i = Some x /\ f x = Raise e /\
    forall (j : nat) x', (j < i)%nat -> l !! j = Some x' -> is_Ok (f x') = true.
Proof.
  induction l as [|a l IH]; simpl; [discriminate|].
  destruct (f a) as [b|e'] eqn:Ha; simpl.
  - destruct (mapM f l) as [bs|e'] eqn:Hl; simpl; [discriminate|].
    intros [= ->]. destruct (IH eq_refl) as (i & x & Hi & Hx & Hbefore).
    exists (S i), x. split; [done|]. split; [done|].
    intros [|j] x' Hj Hx'; simpl in Hx'.
    + injection Hx' as <-. by rewrite Ha.
    + apply (Hbefore j); [lia | done].
  - intros [= ->]. exists 0%nat, a. split; [done|]. split; [done|]. intros j x' Hj. lia.
Qed.

(** The loop over the rows fills the cells from [i] on with the values
    of the rows, in order, and stops at the first row that raises. *)
Lemma python_rows_spec code (colnames : list string) rows (i : nat)
    (index : list Z) (cells : list pyval) :
  (i + length rows <= length cells)%nat ->
  python_rows code colnames rows i (mkSeries index (Object cells))
  = let* values := mapM (fun row => code (row_locals colnames row)) rows in
    Ok (mkSeries index
          (Object (take i cells ++ values ++ drop (i + length rows) cells))).
Proof.
  revert i cells. induction rows as [|row rows IH]; intros i cells Hlen; simpl.
  - by rewrite Nat.add_0_r, take_drop.
  - destruct (code (row_locals colnames row)) as [v|e]; simpl; [|done].
    unfold Series_setitem. cbn [s_values s_index].
    simpl in Hlen. rewrite IH by (rewrite length_insert; lia).
    destruct (mapM _ rows) as [values|e]; simpl; [|done].
    do 3 f_equal.
    rewrite (take_S_r _ _ v) by (apply list_lookup_insert_eq; lia).
    rewrite take_insert_ge by lia. rewrite drop_insert_lt by lia.
    rewrite <- app_assoc. simpl.
    by replace (S (i + length rows)) with (i + S (length rows))%nat by lia.
Qed.

Lemma infer_all_null (n : nat) :
  infer_values (replicate (S n) PyNull) = Object (replicate (S n) PyNull).
Proof.
  unfold infer_values. simpl.
  rewrite !(existsb_replicate _ n PyNull) by done. by rewrite !andb_false_r.
Qed.

Lemma python_formula_loop table (formula : string) code :
  python_compile formula = Ok code ->
  python_formula table formula
  = let* newcol :=
      (let* values := mapM (fun row => code (row_locals (Py.replace_space <$> columns table) row))
                           (DataFrame_values table) in
       Ok (mkSeries (RangeIndex (nrows table))
             (if decide (nrows table = 0%nat) then Numeric [] else Object values)))
    in sanitize_then_autocast newcol.
Proof.
  intros Hcode. unfold python_formula. rewrite Hcode. cbn [bind].
  unfold sanitize_then_autocast.
  pose proof (length_DataFrame_values table) as Hrows.
  destruct (nrows table) as [|n] eqn:Hn.
  - apply length_zero_iff_nil in Hrows. rewrite Hrows. reflexivity.
  - unfold pd_Series. rewrite infer_all_null, length_replicate.
    rewrite python_rows_spec by (rewrite length_replicate; lia).
    destruct (mapM _ _) as [values|e] eqn:Hvalues; [|done].
    cbn [bind]. rewrite take_0, Hrows.
    rewrite drop_ge by (rewrite length_replicate; lia).
    by rewrite app_nil_r.
Qed.

(** X18. In Python mode the rows are evaluated in order, each with its
    own locals, and the column that is sanitized and autocast is the
    object column of their values (on a table with no row, the empty
    float column). If a row raises, the evaluation stops there:
    [python_formula] raises what the first failing row raised, and
    nothing of the rows before it is returned. *)
Theorem python_formula_rows table (formula : string) code :
  python_compile formula = Ok code ->
  let colnames := Py.replace_space <$> columns table in
  let eval row := code (row_locals colnames row) in
  (forall values,
     mapM eval (DataFrame_values table) = Ok values ->
     python_formula table formula
     = sanitize_then_autocast
         (mkSeries (RangeIndex (nrows table))
            (if decide (nrows table = 0%nat) then Numeric [] else Object values))) /\
  (forall e,
     mapM eval (DataFrame_values table) = Raise e ->
     python_formula table formula = Raise e /\
     exists (i : nat) row,
       DataFrame_values table !! i = Some row /\ eval row = Raise e /\
       forall (j : nat) row',
         (j < i)%nat -> DataFrame_values table !! j = Some row' ->
         is_Ok (eval row') = true).
Proof.
  intros Hcode colnames eval.
  pose proof (python_formula_loop table formula code Hcode) as Hloop.
  fold colnames in Hloop. fold eval in Hloop.
  split.
  - intros values Hvalues. by rewrite Hloop, Hvalues.
  - intros e Hfail. split; [by rewrite Hloop, Hfail|].
    by apply mapM_Raise.
Qed.

Lemma sanitize_not_categorical (s t : Series) :
  match s_values s with Categorical _ _ => False | _ => True end ->
  sanitize_series s = Ok t ->
  s_index t = RangeIndex (Values_length (s_values s)) /\
  Values_length (s_values t) = Values_length (s_values s).
Proof.
  destruct s as [idx v]. unfold sanitize_series, reset_index. cbn [s_values s_index].
  destruct v as [cells|cells|cells|cells|categories codes|cells]; intros Hkind;
    try done; intros [= <-]; try done;
    cbn [s_values s_index Values_length];
    by rewrite sanitize_object_cells, length_fmap.
Qed.

Lemma infer_values_not_categorical (cells : list pyval) :
  match infer_values cells with Categorical _ _ => False | _ => True end.
Proof.
  unfold infer_values. destruct cells as [|c cells]; [done|].
  repeat match goal with |- context [if ?b then _ else _] => destruct b end; done.
Qed.

(** The sanitized and autocast column has the rows of the one that went
    in, on the index 0..n-1. *)
Lemma pipeline_shape (newcol s : Series) (n : nat) :
  match s_values newcol with Categorical _ _ => False | _ => True end ->
  Values_length (s_values newcol) = n ->
  sanitize_then_autocast newcol = Ok s ->
  Values_length (s_values s) = n /\ s_index s = RangeIndex n.
Proof.
  intros Hkind Hlen Hs. unfold sanitize_then_autocast in Hs.
  apply bind_Ok in Hs as (t & Ht & Hs).
  destruct (sanitize_not_categorical _ _ Hkind Ht) as [Hidx Hlen'].
  destruct (autocast_shape t s Hs) as (Hidx' & Hlen'' & _). split; congruence.
Qed.

Lemma python_formula_shape table (formula : string) (s : Series) :
  python_formula table formula = Ok s ->
  Values_length (s_values s) = nrows table /\ s_index s = RangeIndex (nrows table).
Proof.
  intros Hpython.
  destruct (python_compile formula) as [code|e] eqn:Hcode.
  2:{ unfold python_formula in Hpython. by rewrite Hcode in Hpython. }
  rewrite (python_formula_loop table formula code Hcode) in Hpython.
  apply bind_Ok in Hpython as (newcol & Hnewcol & Hs).
  apply bind_Ok in Hnewcol as (values & Hrows & Hnewcol). injection Hnewcol as <-.
  apply mapM_length in Hrows. rewrite length_DataFrame_values in Hrows.
  eapply pipeline_shape; [| |exact Hs]; cbn [s_values].
  - by destruct (decide _).
  - by destruct (decide _) as [->|].
Qed.

Lemma excel_all_rows_shape table (formula : string) (s : Series) :
  excel_formula table formula true = Ok s ->
  Values_length (s_values s) = nrows table /\ s_index s = RangeIndex (nrows table).
Proof.
  intros Hexcel. unfold excel_formula in Hexcel.
  destruct (excel_compile formula) as [code|e]; [|by destruct (is_Exception e)].
  apply bind_Ok in Hexcel as (newcol & Hnewcol & Hs).
  destruct (all_rows_length code table newcol Hnewcol) as (values & -> & Hlen).
  apply (pipeline_shape (pd_Series values)).
  - apply infer_values_not_categorical.
  - unfold pd_Series. cbn [s_values]. by rewrite Values_length_infer.
  - exact Hs.
Qed.

(** X19. A Python formula, and an Excel formula applied to all rows,
    give a column with exactly one cell for each row of the table, on the
    index 0..n-1; on a table with no row that is an empty column. *)
Theorem per_row_column_length table (formula : string) (s : Series) :
  python_formula table formula = Ok s \/ excel_formula table formula true = Ok s ->
  Values_length (s_values s) = nrows table /\
  s_index s = RangeIndex (nrows table).
Proof.
  intros [Hpython|Hexcel];
    [by eapply python_formula_shape | by eapply excel_all_rows_shape].
Qed.

End PerRow.

(** [B*2] on a table that has no column B: the first row raises. *)
Lemma python_formula_rows_witness :
  @python_formula Demo.engine Demo.table_A12 "B*2"
  = Raise (PyError "NameError" "name 'B' is not defined").
Proof.
  exact (proj1 (proj2 (@python_formula_rows Demo.engine Demo.table_A12 "B*2" _ eq_refl)
                  (PyError "NameError" "name 'B' is not defined") eq_refl)).
Defined.

(** [=A1*2] on every row of a table of two rows. *)
Lemma per_row_column_length_witness :
  Values_length (Numeric [Some (inject_Z 2); Some (inject_Z 4)]) = nrows Demo.table_A12.
Proof.
  exact (proj1 (@per_row_column_length Demo.engine Demo.table_A12 "=A1*2"
                  (mkSeries (RangeIndex 2) (Numeric [Some (inject_Z 2); Some (inject_Z 4)]))
                  (or_intror eq_refl))).
Defined.

(** ** What one call of the compiled formula gives *)

Section EvalExcel.
Implicit Types (code : CompiledFormula) (args : list Arg).

(** X20. [eval_excel] returns a value exactly when the compiled formula
    returned that value, or an array whose only element it is. It raises
    a [UserVisibleError] exactly when the formula raised that error, or
    when the engine reported a function that is not implemented, and then
    the message names that function; no other exception of the formula
    is turned into a message. *)
Theorem eval_excel_outcomes code args :
  (forall v,
     eval_excel code args = Ok v <->
     call code args = Ok (RetValue v) \/ call code args = Ok (RetArray [v])) /\
  (forall m,
     eval_excel code args = Raise (UserVisibleError m) <->
     call code args = Raise (UserVisibleError m) \/
     exists msg name,
       call code args = Raise (DispatcherError msg name true) /\
       m = i18n_trans "excel.functionNotImplemented"
             "Function {name} not implemented" [("name", name)]).
Proof.
  unfold eval_excel, ndarray_item.
  destruct (call code args) as [[[|v' [|v'' items]]|v']|[m'|msg name [|]|cls txt|cls txt]];
    (split;
     [intros v; split; [intros Heq|intros [Heq|Heq]]
     |intros m; split; [intros Heq|intros [Heq|(msg' & name' & Heq & ->)]]]);
    simplify_eq; eauto.
Qed.

End EvalExcel.

(** ** What render returns *)

Section RenderMore.
Context `{External}.
Implicit Types (table t : DataFrame) (params : Params) (newcol : Series).

Lemma prepare_index table prepared :
  _prepare_table_for_excel_formulas table = Ok prepared ->
  df_index prepared = df_index table.
Proof.
  unfold _prepare_table_for_excel_formulas.
  case_bool_decide; [by intros [= <-]|].
  destruct (existsb _ _); [discriminate|]. by intros [= <-].
Qed.

(** [table[name] = newcol] for a name the table does not have. *)
Lemma setitem_new_column table (name : string) newcol t :
  name ∉ columns table ->
  DataFrame_setitem table name newcol = Ok t ->
  if bool_decide (df_index table = []) && negb (bool_decide (s_index newcol = [])) then
    t = mkDataFrame (s_index newcol)
          (((fun c => (c.1, null_column c.2 (length (s_index newcol))))
            <$> df_columns table) ++ [(name, s_values newcol)])
  else
    exists values,
      align (df_index table) newcol = Ok values /\
      t = mkDataFrame (df_index table) (df_columns table ++ [(name, values)]).
Proof.
  intros Hfresh. unfold DataFrame_setitem, _ensure_valid_index.
  destruct (bool_decide (df_index table = []) && negb (bool_decide (s_index newcol = []))).
  - cbn [df_index df_columns]. unfold align. rewrite decide_True by done.
    cbn [bind]. rewrite bool_decide_eq_false_2; [by intros [= <-]|].
    unfold columns in *. cbn [df_columns]. rewrite <- list_fmap_compose.
    by replace (fst ∘ _) with (@fst string Values) by done.
  - destruct (align _ _) as [values|e]; cbn [bind]; [|discriminate].
    rewrite bool_decide_eq_false_2 by done. intros [= <-]. eauto.
Qed.

Lemma attach_new_column table params newcol t :
  attach table params newcol = Ok (RenderedTable t) ->
  exists name,
    (name ∉ columns table) /\ DataFrame_setitem table name newcol = Ok t.
Proof.
  unfold attach.
  destruct (_get_output_column _ _) as [name|] eqn:Hname; [|discriminate].
  apply get_output_column_not_in in Hname.
  destruct (DataFrame_setitem _ _ _) as [t'|e] eqn:Hset; cbn [bind]; [|discriminate].
  intros [= <-]. eauto.
Qed.

(** X4. When [render] returns a table, it is the table it was given or
    that table with the formula's column as one more column at the end,
    under a name no existing column has. The index and the columns that
    were there, datetime columns included, are as they were, in their
    order, and the new column is laid out on the table's index. There is
    one exception: in SingleRow mode a table that has no row gets the one
    row of the new column, with a null in every column that was there. *)
Theorem render_appends_one_column table params t :
  render (Some table) params = Ok (RenderedTable t) ->
  t = table \/
  exists (name : string) newcol,
    let single_row := bool_decide (syntax params = "excel") && negb (all_rows params) in
    (name ∉ columns table) /\
    (if bool_decide (syntax params = "excel") then
       exists input_table,
         _prepare_table_for_excel_formulas table = Ok input_table /\
         excel_formula input_table (formula_excel params) (all_rows params) = Ok newcol
     else python_formula table (Py.strip (formula_python params)) = Ok newcol) /\
    s_index newcol
    = RangeIndex (if single_row then Nat.max 1 (nrows table) else nrows table) /\
    if bool_decide (nrows table = 0%nat) && single_row then
      t = mkDataFrame [0]
            (((fun c => (c.1, null_column c.2 1)) <$> df_columns table)
             ++ [(name, s_values newcol)])
    else
      exists values,
        align (df_index table) newcol = Ok values /\
        t = mkDataFrame (df_index table) (df_columns table ++ [(name, values)]).
Proof.
  intros Hrender.
  assert (forall (name : string) newcol (single_row : bool),
            (name ∉ columns table) ->
            DataFrame_setitem table name newcol = Ok t ->
            s_index newcol
            = RangeIndex (if single_row then Nat.max 1 (nrows table) else nrows table) ->
            if bool_decide (nrows table = 0%nat) && single_row then
              t = mkDataFrame [0]
                    (((fun c => (c.1, null_column c.2 1)) <$> df_columns table)
                     ++ [(name, s_values newcol)])
            else
              exists values,
                align (df_index table) newcol = Ok values /\
                t = mkDataFrame (df_index table) (df_columns table ++ [(name, values)]))
    as Hset.
  { intros name newcol single_row Hfresh Hset Hindex.
    pose proof (setitem_new_column table name newcol t Hfresh Hset) as Ht.
    rewrite Hindex in Ht. unfold nrows in *.
    destruct (df_index table) as [|label labels] eqn:Hlabels.
    - cbn [length] in *. rewrite (bool_decide_eq_true_2 ([] = [])) in Ht by done.
      rewrite (bool_decide_eq_true_2 (0%nat = 0%nat)) by done.
      destruct single_row; exact Ht.
    - rewrite (bool_decide_eq_false_2 (_ :: _ = [])) in Ht by done.
      rewrite (bool_decide_eq_false_2 (length (_ :: _) = 0%nat)) by done.
      exact Ht. }
  unfold render in Hrender.
  destruct (decide (syntax params = "excel")) as [Hsyntax|Hsyntax];
    [rewrite (bool_decide_eq_true_2 _ Hsyntax) in Hrender
    |rewrite (bool_decide_eq_false_2 _ Hsyntax) in Hrender].
  - destruct (_prepare_table_for_excel_formulas table) as [input_table|e] eqn:Hprepare;
      cbn [bind] in Hrender; [|discriminate].
    destruct (bool_decide (Py.strip _ = "")); [injection Hrender as <-; by left|].
    destruct (excel_formula _ _ _) as [newcol|[]] eqn:Hformula; try discriminate.
    right. apply attach_new_column in Hrender as (name & Hfresh & Hsetitem).
    exists name, newcol. cbv zeta.
    rewrite (bool_decide_eq_true_2 (syntax params = "excel")) by done.
    assert (s_index newcol
            = RangeIndex (if negb (all_rows params) then Nat.max 1 (nrows table)
                          else nrows table)) as Hindex.
    { pose proof (prepare_index _ _ Hprepare) as Hsame.
      destruct (all_rows params); cbn [negb].
      - apply excel_all_rows_shape in Hformula as [_ ->]. unfold nrows. by rewrite Hsame.
      - unfold excel_formula in Hformula.
        destruct (excel_compile _) as [code|e]; [|by destruct (is_Exception e)].
        destruct (eval_excel_one_row _ _) as [value|e]; cbn [bind] in Hformula;
          [|discriminate].
        injection Hformula as <-. unfold pd_Series. cbn [s_index]. f_equal.
        cbn [app length]. rewrite length_replicate. unfold nrows. rewrite Hsame. lia. }
    split; [done|]. split; [eauto|]. split; [exact Hindex|].
    cbn [andb]. by apply Hset.
  - destruct (bool_decide (Py.strip _ = "")); [injection Hrender as <-; by left|].
    destruct (python_formula _ _) as [newcol|[]] eqn:Hformula; try discriminate.
    right. apply attach_new_column in Hrender as (name & Hfresh & Hsetitem).
    exists name, newcol. cbv zeta.
    rewrite (bool_decide_eq_false_2 (syntax params = "excel")) by done. cbn [andb].
    pose proof (python_formula_shape _ _ _ Hformula) as [_ Hindex].
    split; [done|]. split; [done|]. split; [exact Hindex|].
    by apply (Hset name newcol false).
Qed.

Lemma lstrip_blank (s : string) : blank s = true -> Py.lstrip s = "".
Proof.
  unfold blank. induction s as [|c s IH]; simpl; [done|].
  intros Hs. apply andb_true_iff in Hs as [Hc Hs]. rewrite Hc. by apply IH.
Qed.

Lemma strip_blank (s : string) : blank s = true -> Py.strip s = "".
Proof. intros Hs. unfold Py.strip. by rewrite lstrip_blank. Qed.

(** X5. A formula of white space only is no computation. In Python mode
    [render] returns the table it was given, whatever the other
    parameters are. In Excel mode the table is prepared before the
    formula is looked at: [render] returns the table it was given (not
    the prepared one) when the preparation returns, and the preparation's
    OverflowError leaves [render] when a datetime column holds an instant
    beyond the range of the subtraction. Without a table [render]
    returns None. *)
Theorem render_blank_formula params :
  (forall table,
     syntax params = "excel" -> blank (formula_excel params) = true ->
     render (Some table) params
     = (let* _ := _prepare_table_for_excel_formulas table in Ok (RenderedTable table)) /\
     (Forall (fun c => column_overflows c.2 = false) (df_columns table) ->
      render (Some table) params = Ok (RenderedTable table)) /\
     (forall (name : string) cells,
        (name, Datetime cells) ∈ df_columns table ->
        existsb subtraction_overflows cells = true ->
        exists msg, render (Some table) params = Raise (PyError "OverflowError" msg))) /\
  (forall table,
     syntax params <> "excel" -> blank (formula_python params) = true ->
     render (Some table) params = Ok (RenderedTable table)) /\
  render None params = Ok RenderedNone.
Proof.
  split; [|split; [|done]].
  - intros table Hsyntax Hblank.
    assert (render (Some table) params
            = (let* _ := _prepare_table_for_excel_formulas table in
               Ok (RenderedTable table))) as Hrender.
    { unfold render. rewrite bool_decide_eq_true_2 by done.
      destruct (_prepare_table_for_excel_formulas table); [|done]. cbn [bind].
      by rewrite strip_blank, bool_decide_eq_true_2. }
    split; [exact Hrender|]. rewrite Hrender. split.
    + intros Hall. by rewrite prepare_ok.
    + intros name cells Hin Hcells. rewrite (prepare_raises table name cells Hin Hcells).
      eauto.
  - intros table Hsyntax Hblank. unfold render.
    rewrite bool_decide_eq_false_2 by done.
    by rewrite strip_blank, bool_decide_eq_true_2.
Qed.

End RenderMore.

(** [=1+1] in SingleRow mode on a table that has a column and no row:
    the table that comes back has one row. *)
Lemma render_appends_one_column_witness :
  mkDataFrame [0] [("A", Numeric [None]); ("result", Demo.ints [2])]
  = mkDataFrame [] [("A", Numeric [])] \/
  exists (name : string) (newcol : Series),
    (name ∉ ["A"]) /\
    (exists input_table,
       _prepare_table_for_excel_formulas (mkDataFrame [] [("A", Numeric [])])
       = Ok input_table /\
       @excel_formula Demo.engine input_table "=1+1" false = Ok newcol) /\
    s_index newcol = [0] /\
    mkDataFrame [0] [("A", Numeric [None]); ("result", Demo.ints [2])]
    = mkDataFrame [0] ([("A", Numeric [None])] ++ [(name, s_values newcol)]).
Proof.
  exact (@render_appends_one_column Demo.engine
           (mkDataFrame [] [("A", Numeric [])])
           (mkParams "excel" "=1+1" "" false "") _ eq_refl).
Defined.

(** A formula of two spaces in Excel mode, on a table that holds
    2200-01-01. *)
Lemma render_blank_formula_witness :
  exists msg,
    @render Demo.engine (Some Demo.table_2200) (mkParams "excel" "  " "" false "")
    = Raise (PyError "OverflowError" msg).
Proof.
  refine (proj2 (proj2 (proj1 (@render_blank_formula Demo.engine
                                 (mkParams "excel" "  " "" false ""))
                          Demo.table_2200 eq_refl eq_refl))
            "A" [Some (datetime64_ns 2200 1 1)] _ eq_refl).
  apply list_elem_of_here.
Defined.
